(** * ai-hero, day-1 app: the chat endpoint and the chat page

    A shallow embedding of

    - [src/app/api/chat/route.ts]: the [POST] handler (session check, user
      lookup, body validation, daily quota, request log, [streamText] call)
      and the [execute] function of its one tool, [searchWeb];
    - [src/app/api/chat/system-prompt.ts];
    - the chat page component ([ChatPage], with [Collapse] and
      [onFormSubmit]).

    Collaborators that the handler awaits (the auth provider, the database,
    the search provider, the language model) are inputs of the embedding;
    what the handler does to them is threaded through an explicit world. *)

From Stdlib Require Import ZArith Ascii.
From stdpp Require Import base strings list gmap pretty.

Local Open Scope string_scope.
Local Open Scope list_scope.
Local Open Scope stdpp_scope.

(* ===================================================================== *)
(** * Part I: [route.ts] *)
(* ===================================================================== *)

Module Route.

(** ** JavaScript values, as far as the handler inspects them *)

(** A parsed JSON document: the result of [request.json()]. An object is the
    list of its own properties in insertion order, each key once. *)
#[warnings="-register-all"]
Inductive JsValue :=
| JNull
| JBool (b : bool)
| JNum (n : Z)
| JStr (s : string)
| JArr (items : list JsValue)
| JObj (props : list (string * JsValue)).

(** What a [catch] clause can receive: an [Error] instance, or any other
    thrown value, of which the code only ever takes [String(err)]. *)
Inductive JsThrown :=
| ThrownError (name message : string)
| ThrownValue (asString : string).

(** [obj.key] on an object's property list; [None] is [undefined]. *)
Fixpoint getProp (key : string) (props : list (string * JsValue)) : option JsValue :=
  match props with
  | [] => None
  | (k, v) :: rest => if bool_decide (k = key) then Some v else getProp key rest
  end.

(** JavaScript truthiness of a possibly-undefined JSON value. *)
Definition truthy (v : option JsValue) : bool :=
  match v with
  | None => false
  | Some JNull => false
  | Some (JBool b) => b
  | Some (JNum n) => negb (n =? 0)%Z
  | Some (JStr s) => negb (bool_decide (s = ""))
  | Some (JArr _) => true
  | Some (JObj _) => true
  end.

(** [Array.isArray]. *)
Definition isArray (v : option JsValue) : bool :=
  match v with
  | Some (JArr _) => true
  | _ => false
  end.

(** ** The data store: [users] and [requestLogs] *)

(** The two columns of [users] that the handler selects. *)
Record User := mkUser {
  user_id : string;
  user_isAdmin : bool
}.

(** A row of [requestLogs]; [createdAt] is in seconds since the epoch. *)
Record RequestLog := mkRequestLog {
  log_userId : string;
  log_createdAt : Z
}.

Record Db := mkDb {
  users : list User;
  requestLogs : list RequestLog
}.

(** ** The auth collaborator: [session?.user?.id] *)

Record SessionUser := mkSessionUser { su_id : option string }.
Record Session := mkSession { session_user : option SessionUser }.

(** [session?.user?.id]: [None] is [null] or [undefined] anywhere along the
    chain. *)
Definition sessionUserId (session : option Session) : option string :=
  match session with
  | None => None
  | Some s =>
      match session_user s with
      | None => None
      | Some u => su_id u
      end
  end.

(** ** The request and the response *)

(** [req_json] is what [await request.json()] settles to: a parsed document,
    or the rejection it throws on a body that is not JSON. *)
Record Request := mkRequest {
  req_json : JsThrown + JsValue
}.

(** A stop condition of the step loop; [stepCountIs] is the only one the
    handler builds. *)
Inductive StopCondition :=
| stepCountIs (stepCount : nat).

Inductive ToolChoice := tc_auto | tc_none | tc_required.

(** The options object handed to [streamText] (the logging hooks write to
    the console only and are left out). *)
Record StreamTextOptions := mkStreamTextOptions {
  opt_system : string;
  opt_messages : list JsValue;
  opt_tools : list string;
  opt_toolChoice : ToolChoice;
  opt_maxRetries : nat;
  opt_stopWhen : StopCondition;
  opt_includeRawChunks : bool
}.

Inductive ResponseBody :=
| JsonBody (stringified : JsValue)
| UIMessageStream (opts : StreamTextOptions).

Record Response := mkResponse {
  status : nat;
  headers : list (string * string);
  body : ResponseBody
}.

(** ** The handler's world *)

(** What the handler does to its collaborators, in the order it does it. *)
Inductive Effect :=
| InsertRequestLog (row : RequestLog)
| CallStreamText (opts : StreamTextOptions).

Record World := mkWorld {
  db : Db;
  effects : list Effect
}.

(** How the AI SDK's [convertToModelMessages] fails: on a message it cannot
    read (a [TypeError], as for the element [null]), or on a message with a
    role it does not support (the SDK's [MessageConversionError]). *)
Inductive ConversionFailure :=
| NotReadable (message : string)
| NotSupported (message : string).

(** The exception of a failed conversion. *)
Definition conversionError (f : ConversionFailure) : JsThrown :=
  match f with
  | NotReadable message => ThrownError "TypeError" message
  | NotSupported message => ThrownError "AI_MessageConversionError" message
  end.

(** What the handler is given and does not change. The last field is the
    AI SDK's [convertToModelMessages]: from the messages of the body, the
    model's messages, or its failure. *)
Record Env := mkEnv {
  env_session : option Session;        (* what [auth()] resolves to *)
  env_now : Z;                         (* the database clock, [now()] *)
  env_DAILY_REQUEST_LIMIT : Z;         (* [env.DAILY_REQUEST_LIMIT] *)
  env_convertToModelMessages : list JsValue -> ConversionFailure + list JsValue
}.

(** How a block of the handler ends: it falls through with a value, it
    [return]s a response, or it [throw]s. *)
Inductive Completion (A : Type) :=
| Normal (a : A)
| Returned (r : Response)
| Thrown (e : JsThrown).
Arguments Normal {A} a.
Arguments Returned {A} r.
Arguments Thrown {A} e.

Definition Handler (A : Type) : Type := World -> World * Completion A.

Definition ret {A} (a : A) : Handler A := fun w => (w, Normal a).
Definition return_ {A} (r : Response) : Handler A := fun w => (w, Returned r).
Definition throw {A} (e : JsThrown) : Handler A := fun w => (w, Thrown e).

Definition bind {A B} (m : Handler A) (k : A -> Handler B) : Handler B :=
  fun w =>
    match m w with
    | (w', Normal a) => k a w'
    | (w', Returned r) => (w', Returned r)
    | (w', Thrown e) => (w', Thrown e)
    end.

#[global] Instance handler_ret : MRet Handler := @ret.
#[global] Instance handler_bind : MBind Handler := fun A B k m => bind m k.

(** ** Database queries *)

(** [date_trunc('day', t)], with the session time zone at UTC. *)
Definition date_trunc_day (t : Z) : Z := (t / 86400 * 86400)%Z.

(** [select id, isAdmin from users where id = $1 limit 1]. *)
Definition selectUser (id : string) : Handler (list User) :=
  fun w => (w, Normal (take 1 (filter (fun u => user_id u = id) (users (db w))))).

(** The request events of [userId] since the start of the current day: the
    rows that satisfy [userId = $1 and createdAt >= date_trunc('day', now())]. *)
Definition requestsToday (env : Env) (userId : string) (d : Db) : list RequestLog :=
  filter (fun r => log_userId r = userId
                   /\ (date_trunc_day (env_now env) <= log_createdAt r)%Z)
         (requestLogs d).

(** [select count( * ) from requestLogs where ...]: always one row. *)
Definition countRequestsToday (env : Env) (userId : string) : Handler (list Z) :=
  fun w => (w, Normal [Z.of_nat (length (requestsToday env userId (db w)))]).

(** [insert into requestLogs (userId) values ($1)]; [createdAt] takes the
    column default, the database clock. *)
Definition insertRequestLog (env : Env) (userId : string) : Handler unit :=
  fun w =>
    let row := mkRequestLog userId (env_now env) in
    (mkWorld (mkDb (users (db w)) (requestLogs (db w) ++ [row]))
             (effects w ++ [InsertRequestLog row]),
     Normal tt).

(** ** The handler *)

Definition maxDuration : nat := 60.

(** A line break and a double quote, for the template literal below. *)
Definition nl : string := String (ascii_of_nat 10) "".
Definition dq : string := String (ascii_of_nat 34) "".

(** [system-prompt.ts]. *)
Definition systemPrompt : string :=
  nl +:+ "You are Jarvis, a helpful research assistant." +:+ nl
  +:+ nl
  +:+ "Capabilities:" +:+ nl
  +:+ "- You can call tools, especially " +:+ dq +:+ "+searchWeb" +:+ dq
  +:+ " to search the public web." +:+ nl
  +:+ "- Prefer calling " +:+ dq +:+ "+searchWeb" +:+ dq
  +:+ " whenever the user asks for factual, current, or verifiable information." +:+ nl
  +:+ "- When you use search, summarize concisely and ALWAYS cite sources inline like [Title](URL)."
  +:+ nl
  +:+ nl
  +:+ "Guidelines:" +:+ nl
  +:+ "- If unsure, search first." +:+ nl
  +:+ "- Avoid speculation; prefer sourced facts." +:+ nl
  +:+ "- Keep answers clear and skimmable." +:+ nl.

(** [new Response(JSON.stringify({ error }), { status, headers })]. *)
Definition errorResponse (status : nat) (error : string) : Response :=
  mkResponse status [("content-type", "application/json")]
             (JsonBody (JObj [("error", JStr error)])).

(** [await auth()]. *)
Definition auth (env : Env) : Handler (option Session) :=
  ret (env_session env).

(** [body.messages] for a body that is not [null]: a property read on
    anything but an object with that key is [undefined]. *)
Definition bodyMessages (body : JsValue) : option JsValue :=
  match body with
  | JObj props => getProp "messages" props
  | _ => None
  end.

(** [const { messages } = await request.json()]: the promise may reject, and
    destructuring [null] throws a [TypeError]. *)
Definition destructureMessages (request : Request) : Handler (option JsValue) :=
  match req_json request with
  | inl e => throw e
  | inr JNull =>
      throw (ThrownError "TypeError"
               "Cannot destructure property 'messages' of '(intermediate value)' as it is null.")
  | inr body => mret (bodyMessages body)
  end.

(** [messages.length === 0], reached only for an array. *)
Definition lengthIsZero (v : option JsValue) : bool :=
  match v with
  | Some (JArr []) => true
  | _ => false
  end.

(** The elements of [messages] once it is known to be an array. *)
Definition arrayItems (v : option JsValue) : list JsValue :=
  match v with
  | Some (JArr items) => items
  | _ => []
  end.

(** The options of the [streamText] call. *)
Definition streamTextOptions (messages : list JsValue) : StreamTextOptions :=
  {| opt_system := systemPrompt;
     opt_messages := messages;
     opt_tools := ["searchWeb"];
     opt_toolChoice := tc_auto;
     opt_maxRetries := 3;
     opt_stopWhen := stepCountIs 10;
     opt_includeRawChunks := true |}.

(** [streamText({...})]: the call that starts the model. *)
Definition streamText (opts : StreamTextOptions) : Handler StreamTextOptions :=
  fun w => (mkWorld (db w) (effects w ++ [CallStreamText opts]), Normal opts).

(** [convertToModelMessages(messages)], evaluated while the argument of
    [streamText] is built. *)
Definition convertToModelMessages (env : Env) (messages : list JsValue)
  : Handler (list JsValue) :=
  match env_convertToModelMessages env messages with
  | inl f => throw (conversionError f)
  | inr converted => ret converted
  end.

(** [result.toUIMessageStreamResponse()], with the headers of a UI message
    stream. *)
Definition toUIMessageStreamResponse (result : StreamTextOptions) : Response :=
  mkResponse 200
    [("content-type", "text/event-stream");
     ("cache-control", "no-cache");
     ("connection", "keep-alive");
     ("x-vercel-ai-ui-message-stream", "v1");
     ("x-accel-buffering", "no")]
    (UIMessageStream result).

(** The rate-limiting block: count today's requests; admins bypass the
    limit. *)
Definition rateLimit (env : Env) (dbUser : User) : Handler unit :=
  let DAILY_LIMIT := env_DAILY_REQUEST_LIMIT env in
  if negb (user_isAdmin dbUser) then
    rows ← countRequestsToday env (user_id dbUser);
    let reqCount := default 0%Z (head rows) in
    if bool_decide (reqCount >= DAILY_LIMIT)%Z then
      return_ (errorResponse 429 "Daily request limit reached")
    else ret tt
  else ret tt.

Definition POST (env : Env) (request : Request) : Handler Response :=
  session ← auth env;
  match sessionUserId session with
  | None => return_ (errorResponse 401 "Unauthorized")
  | Some id =>
      if bool_decide (id = "") then return_ (errorResponse 401 "Unauthorized")
      else
        rows ← selectUser id;
        match head rows with
        | None => return_ (errorResponse 401 "User not found")
        | Some dbUser =>
            messages ← destructureMessages request;
            if negb (truthy messages) || negb (isArray messages) || lengthIsZero messages
            then throw (ThrownError "Error" "No messages provided")
            else
              rateLimit env dbUser;;
              insertRequestLog env (user_id dbUser);;
              converted ← convertToModelMessages env (arrayItems messages);
              result ← streamText (streamTextOptions converted);
              ret (toUIMessageStreamResponse result)
        end
  end.

(** Running the handler on a store: the response or the exception, and the
    world it leaves. *)
Definition run (env : Env) (request : Request) (d : Db) : World * Completion Response :=
  POST env request (mkWorld d []).

(** ** Vocabulary of the handler's contract *)

(** The user record that the session's identity resolves to, if any. *)
Definition resolveUser (env : Env) (d : Db) : option User :=
  match sessionUserId (env_session env) with
  | None => None
  | Some id =>
      if bool_decide (id = "") then None
      else head (filter (fun u => user_id u = id) (users d))
  end.

(** The request is allowed: the handler reaches its end and answers with the
    stream. *)
Definition allowed (outcome : Completion Response) : Prop :=
  match outcome with
  | Normal r => status r = 200
  | _ => False
  end.

(** The gate let the request through: the handler went on to record it. *)
Definition letThrough (result : World * Completion Response) : Prop :=
  exists row rest, effects (fst result) = InsertRequestLog row :: rest.

(** The handler answered with an error response of this status. *)
Definition rejectedWith (code : nat) (outcome : Completion Response) : Prop :=
  match outcome with
  | Returned r => status r = code
  | _ => False
  end.

(** The validation of [messages], as one test. *)
Definition noMessages (messages : option JsValue) : bool :=
  negb (truthy messages) || negb (isArray messages) || lengthIsZero messages.

(** The same surroundings at another reading of the clock. *)
Definition atTime (t : Z) (env : Env) : Env :=
  {| env_session := env_session env;
     env_now := t;
     env_DAILY_REQUEST_LIMIT := env_DAILY_REQUEST_LIMIT env;
     env_convertToModelMessages := env_convertToModelMessages env |}.

(** The store after the handler has run on the request once at each of the
    given clock readings, in turn. *)
Fixpoint serveAt (env : Env) (request : Request) (times : list Z) (d : Db) : Db :=
  match times with
  | [] => d
  | t :: rest => serveAt env request rest (db (fst (run (atTime t env) request d)))
  end.

(** The model was called. *)
Definition isModelCall (e : Effect) : bool :=
  match e with
  | CallStreamText _ => true
  | _ => false
  end.

(** ** The [searchWeb] tool *)

(** The signal that [streamText] hands to a tool's [execute]. *)
Record AbortSignal := mkAbortSignal {
  aborted : bool
}.

(** The first argument of [searchSerper]. *)
Record SerperInput := mkSerperInput {
  q : string;
  num : nat
}.

(** One entry of the provider's [organic] list: the three fields that
    [execute] reads, and what else the provider sends along. *)
Record OrganicResult := mkOrganicResult {
  org_title : string;
  org_link : string;
  org_snippet : string;
  org_position : nat;
  org_date : option string
}.

Record SerperResults := mkSerperResults {
  organic : list OrganicResult
}.

(** What [execute] returns to the model, item by item. *)
Record ToolResultItem := mkToolResultItem {
  title : string;
  link : string;
  snippet : string
}.

(** What [execute] does besides returning. *)
Inductive ToolEffect :=
| CallSearchSerper (input : SerperInput) (signal : AbortSignal)
| ConsoleError (args : list string).

(** An [async] body: the effects so far, and a value or an exception. *)
Definition Async (A : Type) : Type := list ToolEffect * (JsThrown + A).

#[global] Instance async_ret : MRet Async := fun A a => ([], inr a).
#[global] Instance async_bind : MBind Async := fun A B k m =>
  match m with
  | (log, inl e) => (log, inl e)
  | (log, inr a) => let '(log', r) := k a in (log ++ log', r)
  end.

(** [try { body } catch (err) { handler }]. *)
Definition tryCatch {A} (body : Async A) (handler : JsThrown -> Async A) : Async A :=
  match body with
  | (log, inl err) => let '(log', r) := handler err in (log ++ log', r)
  | (log, inr a) => (log, inr a)
  end.

(** [err instanceof Error ? err.message : String(err)]. *)
Definition errorMessage (err : JsThrown) : string :=
  match err with
  | ThrownError _ message => message
  | ThrownValue asString => asString
  end.

Definition consoleError (args : list string) : Async unit :=
  ([ConsoleError args], inr tt).

Section SearchWeb.

(** The search provider client, [searchSerper] of [~/serper]: given the
    input and the signal, its promise resolves or rejects. *)
Variable searchSerper : SerperInput -> AbortSignal -> JsThrown + SerperResults.

Definition awaitSearchSerper (input : SerperInput) (signal : AbortSignal)
  : Async SerperResults :=
  ([CallSearchSerper input signal], searchSerper input signal).

(** [execute] of the [searchWeb] tool. *)
Definition execute (query : string) (abortSignal : AbortSignal)
  : Async (list ToolResultItem) :=
  tryCatch
    (results ← awaitSearchSerper {| q := query; num := 10 |} abortSignal;
     mret (map (fun r => {| title := org_title r;
                            link := org_link r;
                            snippet := org_snippet r |})
               (organic results)))
    (fun err =>
       let message := errorMessage err in
       consoleError ["searchWeb tool error:"; message];;
       mret [{| title := "Search error"; link := ""; snippet := message |}]).

End SearchWeb.

End Route.

(* ===================================================================== *)
(** * Part II: the step loop behind [streamText] *)
(* ===================================================================== *)

(** The loop that [streamText] runs is the AI SDK's and is not part of the
    sources. This part models it from the design's description of the
    orchestrator: the events, the steps, the retry cap and the step cap. What
    it is run with, the options and the tool's [execute], is [route.ts]'s. *)

Module Orchestrator.
Import Route.

(** Modelled from the spec: one tool call that the model requests in a
    step. *)
Record ToolCall := mkToolCall {
  call_id : string;
  call_query : string
}.

(** Modelled from the spec: the wire events of the outgoing stream. *)
Inductive StreamEvent :=
| text_delta (delta : string)
| tool_call_start (id : string)
| tool_call_result (id : string) (output : JsThrown + list ToolResultItem)
| step_boundary
| error (message : string)
| done.

(** Modelled from the spec: what one call of the language model comes back
    with. *)
Inductive ModelReply :=
| Generated (deltas : list string) (toolCalls : list ToolCall)
| TransientFailure (message : string)
| FatalFailure (message : string).

(** Modelled from the spec: a finished step, as it is appended to the
    model's working context. *)
Record StepResult := mkStepResult {
  step_deltas : list string;
  step_toolCalls : list ToolCall;
  step_toolOutputs : list (JsThrown + list ToolResultItem)
}.

(** Modelled from the spec: the language model, which from the options'
    messages, the steps so far and the number of the attempt at this step
    gives a reply. *)
Definition LanguageModel : Type :=
  list JsValue -> list StepResult -> nat -> ModelReply.

(** Modelled from the spec: [stepCountIs(n)], the step cap, holds of the
    steps so far when there are exactly [n]. *)
Definition isStopConditionMet (c : StopCondition) (steps : list StepResult) : bool :=
  match c with
  | stepCountIs stepCount => (length steps =? stepCount)%nat
  end.

(** Modelled from the spec: the retry policy of [streamText], which is the AI
    SDK's and absent from src/. A transient failure is retried, without an
    event, up to the retry cap; the reply of the last attempt stands. *)
Fixpoint callWithRetry (attemptReply : nat -> ModelReply) (retriesLeft attempt : nat)
  : ModelReply :=
  match attemptReply attempt with
  | TransientFailure message =>
      match retriesLeft with
      | O => TransientFailure message
      | S retriesLeft' => callWithRetry attemptReply retriesLeft' (S attempt)
      end
  | reply => reply
  end.

Section StepLoop.

Variable searchSerper : SerperInput -> AbortSignal -> JsThrown + SerperResults.
Variable abortSignal : AbortSignal.
Variable model : LanguageModel.
Variable opts : StreamTextOptions.

(** Modelled from the spec: the events of one tool call, its start and then
    its result, which is what [execute] returns. *)
Definition toolCallEvents (c : ToolCall) : list StreamEvent :=
  [tool_call_start (call_id c);
   tool_call_result (call_id c) (snd (execute searchSerper (call_query c) abortSignal))].

(** Modelled from the spec: the outputs of a step's tool calls, in the
    order of the calls. *)
Definition toolOutputs (toolCalls : list ToolCall) : list (JsThrown + list ToolResultItem) :=
  map (fun c => snd (execute searchSerper (call_query c) abortSignal)) toolCalls.

(** Modelled from the spec: the events of one step, its text deltas as they
    come, its tool calls, and the step boundary. *)
Definition stepEvents (deltas : list string) (toolCalls : list ToolCall) : list StreamEvent :=
  map text_delta deltas ++ flat_map toolCallEvents toolCalls ++ [step_boundary].

(** Modelled from the spec: the step loop of [streamText], which is the AI
    SDK's and absent from src/. The model generates; text deltas are
    forwarded; each tool call is started, run through [execute] and
    answered; the step ends with a step boundary. If the step requested tool
    calls and the stop condition does not hold of the steps so far, a new
    step begins; otherwise the stream ends with [done]. A model failure that
    survives the retries ends the stream with an [error] event. [fuel]
    bounds the number of steps; [None] is fuel run out. *)
Fixpoint stepLoop (fuel : nat) (steps : list StepResult) : option (list StreamEvent) :=
  match fuel with
  | O => None
  | S fuel' =>
      match callWithRetry (model (opt_messages opts) steps) (opt_maxRetries opts) 0 with
      | TransientFailure message => Some [error message]
      | FatalFailure message => Some [error message]
      | Generated deltas toolCalls =>
          let steps' := steps ++ [mkStepResult deltas toolCalls (toolOutputs toolCalls)] in
          if negb (bool_decide (toolCalls = []))
             && negb (isStopConditionMet (opt_stopWhen opts) steps')
          then option_map (app (stepEvents deltas toolCalls)) (stepLoop fuel' steps')
          else Some (stepEvents deltas toolCalls ++ [done])
      end
  end.

(** The model asks for a tool call on every step: whatever the steps so
    far, its reply, once retried, is a generation with a tool call in it. *)
Definition requestsToolOnEveryStep : Prop :=
  forall steps, exists deltas c cs,
    callWithRetry (model (opt_messages opts) steps) (opt_maxRetries opts) 0
    = Generated deltas (c :: cs).

End StepLoop.

Definition isStepBoundary (e : StreamEvent) : bool :=
  match e with
  | step_boundary => true
  | _ => false
  end.

Definition isError (e : StreamEvent) : bool :=
  match e with
  | error _ => true
  | _ => false
  end.

(** The number of step boundaries in a stream. *)
Definition stepBoundaries (events : list StreamEvent) : nat :=
  length (List.filter isStepBoundary events).

(** How a stream may end: with [done], or with an [error] event. *)
Definition endsWell (events : list StreamEvent) : Prop :=
  last events = Some done \/ exists message, last events = Some (error message).

End Orchestrator.

(* ===================================================================== *)
(** * Part III: the chat page *)
(* ===================================================================== *)

Module ChatPage.

(** ** Messages and their parts *)

(** [status] of the [useChat] hook. *)
Inductive ChatStatus := submitted | streaming | ready | error.

#[global] Instance ChatStatus_eq_dec : EqDecision ChatStatus.
Proof. solve_decision. Defined.

(** [state] of a tool part. *)
Inductive ToolState :=
| input_streaming
| input_available
| output_available
| output_error.

#[global] Instance ToolState_eq_dec : EqDecision ToolState.
Proof. solve_decision. Defined.

(** One element of a tool's output array. The page reads it as [any]: each
    of the six properties it looks at may be missing, [None]. *)
Record Item := mkItem {
  item_title : option string;
  item_name : option string;
  item_link : option string;
  item_url : option string;
  item_snippet : option string;
  item_description : option string
}.

(** [tp.output], read as [any]: an array whose elements may be [null], or
    anything else. *)
Inductive ToolOutput :=
| OutputArray (items : list (option Item))
| OutputOther.

(** The variants of a [UIMessage] part. *)
Inductive Part :=
| TextPart (text : string)
| ReasoningPart (text : string)
| ToolPart (toolName : string) (state : ToolState) (output : option ToolOutput)
| DynamicToolPart (toolName : string) (state : ToolState) (output : option ToolOutput)
| SourceUrlPart (url : string)
| FilePart (url : string)
| DataPart (name : string)
| StepStartPart.

(** [p.type], the string the page dispatches on. *)
Definition partType (p : Part) : string :=
  match p with
  | TextPart _ => "text"
  | ReasoningPart _ => "reasoning"
  | ToolPart toolName _ _ => "tool-" +:+ toolName
  | DynamicToolPart _ _ _ => "dynamic-tool"
  | SourceUrlPart _ => "source-url"
  | FilePart _ => "file"
  | DataPart name => "data-" +:+ name
  | StepStartPart => "step-start"
  end.

(** ["text" in p], and then [p.text]. *)
Definition partText (p : Part) : option string :=
  match p with
  | TextPart text => Some text
  | ReasoningPart text => Some text
  | _ => None
  end.

(** [tp.state] and [tp.output] of a part; [None] is [undefined]. *)
Definition partState (p : Part) : option ToolState :=
  match p with
  | ToolPart _ state _ => Some state
  | DynamicToolPart _ state _ => Some state
  | _ => None
  end.

Definition partOutput (p : Part) : option ToolOutput :=
  match p with
  | ToolPart _ _ output => output
  | DynamicToolPart _ _ output => output
  | _ => None
  end.

Inductive Role := system | user | assistant.

Record UIMessage := mkUIMessage {
  id : string;
  role : Role;
  parts : option (list Part)
}.

(** [isToolUIPart(p)]: the type starts with [tool-]. *)
Definition isToolUIPart (p : Part) : bool :=
  bool_decide (String.prefix "tool-" (partType p) = true).

(** [String(tp.type).replace(/^tool-/, "")]. *)
Definition toolNameOf (p : Part) : string :=
  let type := partType p in
  if String.prefix "tool-" type then String.substring 5 (String.length type - 5) type
  else type.

(** ** What the page renders *)

(** The updater handed to [setExpandedResults]. *)
Definition Updater : Type := gmap string bool -> gmap string bool.

Inductive Attr :=
| attr (name value : string)
| flag (name : string) (value : bool)
| onClick (setExpandedResults : Updater).

(** A rendered element, a text node, or the [ChatMessage] component with its
    props. *)
#[warnings="-register-all"]
Inductive Node :=
| Text (s : string)
| Elem (tag : string) (attrs : list Attr) (children : list Node)
| ChatMessage (text : string) (role : Role) (userName : string).

(** [expandedResults[key]], coerced by [!!] or by a condition. *)
Definition isExpanded (expandedResults : gmap string bool) (key : string) : bool :=
  default false (expandedResults !! key).

(** [(prev) => ({ ...prev, [key]: !prev[key] })]. *)
Definition toggle (key : string) : Updater :=
  fun prev => <[key := negb (default false (prev !! key))]> prev.

(** [`${message.id}-${index}`]. *)
Definition resultsKey (messageId : string) (index : nat) : string :=
  messageId +:+ "-" +:+ pretty index.

(** [Collapse]; the measured height only feeds the transition and is left
    out. *)
Definition Collapse (open : bool) (children : list Node) : Node :=
  Elem "div"
    [attr "className" "overflow-hidden transition-all duration-300 ease-out";
     attr "opacity" (if open then "1" else "0.4");
     flag "aria-hidden" (negb open)]
    [Elem "div" [] children].

(** [a ?? b ?? c] on string properties. *)
Definition coalesce (a b : option string) (c : string) : string :=
  match a with
  | Some s => s
  | None => default c b
  end.

(** [item?.title ?? item?.name ?? `Result ${idx + 1}`] and its two
    siblings. *)
Definition titleOf (idx : nat) (item : option Item) : string :=
  coalesce (item ≫= item_title) (item ≫= item_name) ("Result " +:+ pretty (idx + 1)).

Definition linkOf (item : option Item) : string :=
  coalesce (item ≫= item_link) (item ≫= item_url) "".

Definition snippetOf (item : option Item) : string :=
  coalesce (item ≫= item_snippet) (item ≫= item_description) "".

(** A string used as a condition: the empty string is falsy. *)
Definition nonEmpty (s : string) : bool := negb (bool_decide (s = "")).

(** [title === "Search error" || !link]. *)
Definition isError (idx : nat) (item : option Item) : bool :=
  bool_decide (titleOf idx item = "Search error") || negb (nonEmpty (linkOf item)).

(** One [<li>] of a tool's result list. *)
Definition renderItem (idx : nat) (item : option Item) : Node :=
  let title := titleOf idx item in
  let link := linkOf item in
  let snippet := snippetOf item in
  let isError := isError idx item in
  Elem "li"
    [attr "key" (pretty idx);
     attr "className" "px-3 py-2 transition-colors hover:bg-gray-800/80"]
    [Elem "div" [attr "className" "flex flex-col gap-1"]
       ([Elem "div" [attr "className" "text-sm font-medium text-blue-300"]
           [if nonEmpty link
            then Elem "a" [attr "href" link;
                           attr "target" "_blank";
                           attr "rel" "noreferrer noopener";
                           attr "className" "hover:underline"]
                      [Text title]
            else Elem "span" [attr "className" "text-red-300"] [Text title]]]
        ++ (if nonEmpty snippet
            then [Elem "div"
                    [attr "className"
                       ("text-xs " +:+ (if isError then "text-red-300" else "text-gray-300"))]
                    [Text snippet]]
            else [])
        ++ (if nonEmpty link
            then [Elem "div" [attr "className" "text-[11px] text-gray-500 break-all"]
                    [Text link]]
            else []))].

(** [Array.isArray(tp.output) ? tp.output : []]. *)
Definition outputItems (tp : Part) : list (option Item) :=
  match partOutput tp with
  | Some (OutputArray items) => items
  | _ => []
  end.

(** [`${count} result${count === 1 ? "" : "s"}`]. *)
Definition resultsLabel (count : nat) : string :=
  pretty count +:+ " result" +:+ (if (count =? 1)%nat then "" else "s").

(** The panel of one tool call. *)
Definition renderToolPart (expandedResults : gmap string bool) (messageId : string)
    (index : nat) (tp : Part) : Node :=
  let key := resultsKey messageId index in
  let toolName := toolNameOf tp in
  let count := length (outputItems tp) in
  let hasList := negb (bool_decide (outputItems tp = [])) in
  Elem "div" [attr "key" key]
    ([Elem "div" []
        ([Elem "div" []
            [Elem "Search" [] [];
             Elem "span" [] [Text (toolName +:+ " results")];
             Elem "span" [] [Text (resultsLabel count)]]]
         ++ (if hasList
             then [Elem "button"
                     [attr "type" "button";
                      onClick (toggle key);
                      flag "aria-expanded" (isExpanded expandedResults key)]
                     [Elem "span" []
                        [Text (if isExpanded expandedResults key then "Hide" else "Show")];
                      Elem "ChevronDown"
                        [attr "className"
                           (if isExpanded expandedResults key then "rotate-180" else "rotate-0")]
                        []]]
             else []))]
     ++ (if hasList
         then [Collapse (isExpanded expandedResults key)
                 [Elem "ul" [attr "className" "divide-y divide-gray-700"]
                    (imap renderItem (outputItems tp))]]
         else [])).

(** The text handed to [ChatMessage]: that of the first part of type
    [text]. *)
Definition messageText (message : UIMessage) : string :=
  match parts message with
  | None => ""
  | Some ps =>
      match List.find (fun p => bool_decide (partType p = "text")) ps with
      | Some textPart => default "" (partText textPart)
      | None => ""
      end
  end.

(** [toolParts]: the parts that are tool parts. *)
Definition toolPartsOf (message : UIMessage) : list Part :=
  match parts message with
  | None => []
  | Some ps => List.filter isToolUIPart ps
  end.

(** The summary of one tool part in [toolInfo]. *)
Definition summaryOf (tp : Part) : string :=
  "Used: " +:+ toolNameOf tp
  +:+ match partOutput tp with
      | Some (OutputArray items) => " (" +:+ resultsLabel (length items) +:+ ")"
      | _ => ""
      end.

(** [toolInfo]: [null] without tool parts, else the summaries joined. *)
Definition toolInfoOf (message : UIMessage) : option string :=
  match toolPartsOf message with
  | [] => None
  | tps => Some (String.concat " · " (map summaryOf tps))
  end.

(** [toolRunning]: some tool part is still waiting for its output. *)
Definition toolRunning (message : UIMessage) : bool :=
  existsb (fun tp => bool_decide (partState tp = Some input_streaming)
                     || bool_decide (partState tp = Some input_available))
          (toolPartsOf message).

(** The body of [messages.map(...)]. *)
Definition renderMessage (expandedResults : gmap string bool) (userName : string)
    (message : UIMessage) : Node :=
  Elem "div" [attr "key" (id message)]
    ((if toolRunning message
      then [Elem "div" [] [Elem "svg" [] []; Elem "span" [] [Text "Searching the web…"]]]
      else [])
     ++ match toolInfoOf message with
        | Some toolInfo => [Elem "div" [attr "className" "mb-1 text-xs text-gray-500"]
                              [Text toolInfo]]
        | None => []
        end
     ++ imap (renderToolPart expandedResults (id message)) (toolPartsOf message)
     ++ [ChatMessage (messageText message) (role message) userName]).

(** ** The form and its handler *)

(** What one render of [ChatPage] closes over: its own state and what the
    [useSession] and [useChat] hooks return. *)
Record View := mkView {
  input : string;
  showSignInModal : bool;
  expandedResults : gmap string bool;
  messages : list UIMessage;
  status : ChatStatus;
  chatError : option string;          (* [error?.message] *)
  isAuthenticated : bool
}.

(** Strings hold text in UTF-8. The white space and the line terminators
    that [trim] removes are, within ASCII, the tab, the line feed, the
    vertical tab, the form feed, the carriage return and the space. *)
Definition isWhiteSpace (a : Ascii.ascii) : bool := Ascii.is_space a.

(** Beyond ASCII, in two bytes: the no-break space U+00A0. *)
Definition isWhiteSpace2 (a b : Ascii.ascii) : bool :=
  (nat_of_ascii a =? 194)%nat && (nat_of_ascii b =? 160)%nat.

(** In three bytes: U+1680, U+2000 to U+200A, the line and paragraph
    separators U+2028 and U+2029, U+202F, U+205F, U+3000, and the byte order
    mark U+FEFF. *)
Definition isWhiteSpace3 (a b c : Ascii.ascii) : bool :=
  let x := nat_of_ascii a in
  let y := nat_of_ascii b in
  let z := nat_of_ascii c in
  ((x =? 225) && (y =? 154) && (z =? 128)
   || (x =? 226) && (y =? 128)
      && ((128 <=? z) && (z <=? 138) || (z =? 168) || (z =? 169) || (z =? 175))
   || (x =? 226) && (y =? 129) && (z =? 159)
   || (x =? 227) && (y =? 128) && (z =? 128)
   || (x =? 239) && (y =? 187) && (z =? 191))%nat.

(** [s.trimStart()]: the string from its first character that is not white
    space. *)
Fixpoint trimStart (s : string) : string :=
  match s with
  | EmptyString => EmptyString
  | String a rest =>
      if isWhiteSpace a then trimStart rest
      else
        match rest with
        | EmptyString => s
        | String b rest2 =>
            if isWhiteSpace2 a b then trimStart rest2
            else
              match rest2 with
              | EmptyString => s
              | String c rest3 => if isWhiteSpace3 a b c then trimStart rest3 else s
              end
        end
  end.

(** [s.trimEnd()]: the string up to where only white space is left. *)
Fixpoint trimEnd (s : string) : string :=
  match s with
  | EmptyString => EmptyString
  | String a rest =>
      if bool_decide (trimStart (String a rest) = "") then ""
      else String a (trimEnd rest)
  end.

(** [s.trim()]. *)
Definition trim (s : string) : string := trimEnd (trimStart s).

(** The calls a handler makes, in order. *)
Inductive Call :=
| preventDefault
| setShowSignInModal (value : bool)
| sendMessage (text : string)
| setInput (value : string).

(** [status === "streaming" || status === "submitted"]. *)
Definition busy (st : ChatStatus) : bool :=
  bool_decide (st = streaming) || bool_decide (st = submitted).

(** [onFormSubmit]: the calls it makes; those after [sendMessage] wait for
    its promise. *)
Definition onFormSubmit (v : View) : list Call :=
  preventDefault ::
  (if negb (nonEmpty (trim (input v))) || busy (status v)
   then []
   else if negb (isAuthenticated v)
        then [setShowSignInModal true]
        else [sendMessage (input v); setInput ""]).

(** The [disabled] attribute of the input and of the submit button. *)
Definition inputDisabled (v : View) : bool :=
  busy (status v) || negb (isAuthenticated v).

Definition buttonDisabled (v : View) : bool :=
  busy (status v) || negb (nonEmpty (trim (input v))) || negb (isAuthenticated v).

Definition renderForm (v : View) : Node :=
  Elem "form" [attr "onSubmit" "onFormSubmit"]
    [Elem "div" [attr "className" "flex gap-2"]
       [Elem "input"
          [attr "value" (input v);
           attr "placeholder" (if isAuthenticated v then "Say something..."
                               else "Sign in to start chatting...");
           attr "aria-label" "Chat input";
           flag "disabled" (inputDisabled v)]
          [];
        Elem "button"
          [attr "type" "submit";
           flag "disabled" (buttonDisabled v)]
          [if busy (status v) then Elem "Loader2" [] [] else Text "Send"]]].

(** The failure banner, shown when [status === "error" || error]. *)
Definition renderBanner (v : View) : list Node :=
  if bool_decide (status v = error) || bool_decide (chatError v ≠ None)
  then [Elem "div" []
          [Elem "span" [] [Text "Request failed"];
           Elem "div" [] [Text (default "Unknown error" (chatError v))]]]
  else [].

(** [ChatPage]. *)
Definition ChatPage (userName : string) (v : View) : list Node :=
  [Elem "div" [attr "className" "flex flex-1 flex-col"]
     (renderBanner v
      ++ [Elem "div" [attr "role" "log"; attr "aria-label" "Chat messages"]
            (map (renderMessage (expandedResults v) userName) (messages v));
          Elem "div" [] [renderForm v]]);
   Elem "SignInModal" [flag "isOpen" (showSignInModal v)] []].

(** ** The page over time *)

(** The page between two events: what it renders from, how many requests
    [sendMessage] has started that have not settled, and the calls of
    [onFormSubmit] that wait for [sendMessage]'s promise. *)
Record Client := mkClient {
  view : View;
  inFlight : nat;
  deferred : list Call
}.

Definition withInput (value : string) (v : View) : View :=
  mkView value (showSignInModal v) (expandedResults v) (messages v) (status v)
         (chatError v) (isAuthenticated v).

Definition withShowSignInModal (value : bool) (v : View) : View :=
  mkView (input v) value (expandedResults v) (messages v) (status v)
         (chatError v) (isAuthenticated v).

Definition withExpandedResults (value : gmap string bool) (v : View) : View :=
  mkView (input v) (showSignInModal v) value (messages v) (status v)
         (chatError v) (isAuthenticated v).

Definition withIsAuthenticated (value : bool) (v : View) : View :=
  mkView (input v) (showSignInModal v) (expandedResults v) (messages v) (status v)
         (chatError v) value.

Definition withChat (ms : list UIMessage) (st : ChatStatus) (err : option string)
    (v : View) : View :=
  mkView (input v) (showSignInModal v) (expandedResults v) ms st err (isAuthenticated v).

(** The user message that [sendMessage({ text })] appends. *)
Definition userMessage (n : nat) (text : string) : UIMessage :=
  mkUIMessage ("msg-" +:+ pretty n) user (Some [TextPart text]).

(** The calls of a handler, one after the other. [sendMessage] starts a
    request: the hook appends the user message, clears its error and moves
    to [submitted]; what follows the [await] is put aside until the request
    settles. *)
Fixpoint runCalls (calls : list Call) (c : Client) : Client :=
  match calls with
  | [] => c
  | preventDefault :: rest => runCalls rest c
  | setShowSignInModal value :: rest =>
      runCalls rest (mkClient (withShowSignInModal value (view c)) (inFlight c) (deferred c))
  | setInput value :: rest =>
      runCalls rest (mkClient (withInput value (view c)) (inFlight c) (deferred c))
  | sendMessage text :: rest =>
      let v := view c in
      mkClient (withChat (messages v ++ [userMessage (length (messages v)) text])
                         submitted None v)
               (S (inFlight c))
               (deferred c ++ rest)
  end.

(** What can happen to the page. *)
Inductive Event :=
| submit                                   (* the form's submit event *)
| change (value : string)                  (* the input's change event *)
| clickToggle (key : string)               (* a click on a Show/Hide button *)
| closeModal                               (* [onClose] of the modal *)
| sessionChanged (authenticated : bool)    (* [useSession] returns anew *)
| chunk (ms : list UIMessage)              (* the stream delivers *)
| finished                                 (* the stream ends *)
| failed (message : string).               (* the request fails *)

(** A request settles: the hook takes its final status, and the calls that
    waited for [sendMessage] run. *)
Definition settle (st : ChatStatus) (err : option string) (c : Client) : Client :=
  let v := view c in
  if busy (status v)
  then runCalls (deferred c)
         (mkClient (withChat (messages v) st err v) (pred (inFlight c)) [])
  else c.

(** One event. The status protocol is the [useChat] hook's: [submitted]
    from [sendMessage] until the first chunk, [streaming] until the stream
    ends, then [ready], or [error] on failure. *)
Definition step (c : Client) (e : Event) : Client :=
  let v := view c in
  match e with
  | submit => runCalls (onFormSubmit v) c
  | change value => mkClient (withInput value v) (inFlight c) (deferred c)
  | clickToggle key =>
      mkClient (withExpandedResults (toggle key (expandedResults v)) v)
               (inFlight c) (deferred c)
  | closeModal => mkClient (withShowSignInModal false v) (inFlight c) (deferred c)
  | sessionChanged authenticated =>
      mkClient (withIsAuthenticated authenticated v) (inFlight c) (deferred c)
  | chunk ms =>
      if busy (status v)
      then mkClient (withChat ms streaming (chatError v) v) (inFlight c) (deferred c)
      else c
  | finished => settle ready None c
  | failed message => settle error (Some message) c
  end.

(** The page as first rendered. *)
Definition initial (authenticated : bool) : Client :=
  mkClient (mkView "" false ∅ [] ready None authenticated) 0 [].


(** ** Reading a rendering *)

(** The [href] among an element's attributes. *)
Definition hrefOf (attrs : list Attr) : list string :=
  flat_map (fun a => match a with
                     | attr name value => if bool_decide (name = "href") then [value] else []
                     | _ => []
                     end) attrs.

(** The targets of the hyperlinks ([<a href>]) in a rendering, in document
    order. *)
Fixpoint hrefs (n : Node) : list string :=
  match n with
  | Elem tag attrs children =>
      (if bool_decide (tag = "a") then hrefOf attrs else []) ++ flat_map hrefs children
  | _ => []
  end.

(** The updaters that the [onClick] handlers of a rendering hand to
    [setExpandedResults], in document order. *)
Definition onClickOf (attrs : list Attr) : list Updater :=
  flat_map (fun a => match a with
                     | onClick update => [update]
                     | _ => []
                     end) attrs.

Fixpoint onClicks (n : Node) : list Updater :=
  match n with
  | Elem _ attrs children => onClickOf attrs ++ flat_map onClicks children
  | _ => []
  end.

(** The values of the boolean attribute [name] in a rendering, in document
    order. *)
Definition flagOf (name : string) (attrs : list Attr) : list bool :=
  flat_map (fun a => match a with
                     | flag n value => if bool_decide (n = name) then [value] else []
                     | _ => []
                     end) attrs.

Fixpoint flagsOf (name : string) (n : Node) : list bool :=
  match n with
  | Elem _ attrs children => flagOf name attrs ++ flat_map (flagsOf name) children
  | _ => []
  end.

(** The [text] props of the [ChatMessage] components in a rendering. *)
Fixpoint chatMessageTexts (n : Node) : list string :=
  match n with
  | ChatMessage text _ _ => [text]
  | Elem _ _ children => flat_map chatMessageTexts children
  | Text _ => []
  end.

(** The text of the first text part of a sequence of parts, the empty
    string if there is none: what a message is said to display. *)
Fixpoint firstTextPart (ps : list Part) : string :=
  match ps with
  | [] => ""
  | TextPart text :: _ => text
  | _ :: rest => firstTextPart rest
  end.

(** No character of the string is a dash. *)
Fixpoint dashFree (s : string) : bool :=
  match s with
  | EmptyString => true
  | String a rest => negb (bool_decide (a = "-"%char)) && dashFree rest
  end.

(** ** Vocabulary of the page's invariant *)



End ChatPage.

(* ===================================================================== *)
(** * Sample data *)
(* ===================================================================== *)

Module Sample.
Import Route.

(** One organic result of the provider. *)
Definition organicResult (n : nat) : OrganicResult :=
  {| org_title := "Result " +:+ pretty n;
     org_link := "https://example.com/" +:+ pretty n;
     org_snippet := "Snippet " +:+ pretty n;
     org_position := n;
     org_date := None |}.

Definition threeOrganic : list OrganicResult := map organicResult (seq 1 3).
Definition elevenOrganic : list OrganicResult := map organicResult (seq 1 11).

(** A provider that answers with three organic results. *)
Definition threeResultSearch (input : SerperInput) (signal : AbortSignal)
  : JsThrown + SerperResults :=
  inr (mkSerperResults threeOrganic).

(** A provider that answers with eleven organic results. *)
Definition generousSearch (input : SerperInput) (signal : AbortSignal)
  : JsThrown + SerperResults :=
  inr (mkSerperResults elevenOrganic).

(** A provider whose request is cancelled. *)
Definition abortedSearch (input : SerperInput) (signal : AbortSignal)
  : JsThrown + SerperResults :=
  inl (ThrownError "AbortError" "This operation was aborted").

(** A provider whose promise rejects with a string. *)
Definition refusedSearch (input : SerperInput) (signal : AbortSignal)
  : JsThrown + SerperResults :=
  inl (ThrownValue "quota exceeded").

(** A model that asks for a search on every step. *)
Definition eagerModel : Orchestrator.LanguageModel :=
  fun messages steps attempt =>
    Orchestrator.Generated ["Let me search."]
      [Orchestrator.mkToolCall ("call-" +:+ pretty (length steps)) "rocq"].

(** A model that searches once and then answers in words. *)
Definition searchOnceModel : Orchestrator.LanguageModel :=
  fun messages steps attempt =>
    match steps with
    | [] => Orchestrator.Generated [] [Orchestrator.mkToolCall "call-0" "rocq"]
    | _ => Orchestrator.Generated ["I could not search the web."] []
    end.

(** A converter that cannot read a message that is not an object, and hands
    on the others. *)
Definition convertObjects (messages : list JsValue)
  : ConversionFailure + list JsValue :=
  if forallb (fun m => match m with JObj _ => true | _ => false end) messages
  then inr messages
  else inl (NotReadable "Cannot read properties of null (reading 'role')").

(** A user below the limit, on the day that starts at second 950400. *)
Definition alice : User := mkUser "alice" false.

Definition sampleEnv : Env :=
  {| env_session := Some (mkSession (Some (mkSessionUser (Some "alice"))));
     env_now := 1000000;
     env_DAILY_REQUEST_LIMIT := 2;
     env_convertToModelMessages := convertObjects |}.

Definition sampleDb : Db :=
  {| users := [mkUser "root" true; alice];
     requestLogs := [mkRequestLog "alice" 900000;
                     mkRequestLog "alice" 999000;
                     mkRequestLog "root" 999500] |}.

Definition sampleMessage : JsValue :=
  JObj [("id", JStr "m1"); ("role", JStr "user");
        ("parts", JArr [JObj [("type", JStr "text"); ("text", JStr "What is Rocq?")]])].

Definition sampleRequest : Request :=
  mkRequest (inr (JObj [("messages", JArr [sampleMessage])])).

(** The same day with a limit that [alice] has reached. *)
Definition strictEnv : Env :=
  {| env_session := env_session sampleEnv;
     env_now := env_now sampleEnv;
     env_DAILY_REQUEST_LIMIT := 1;
     env_convertToModelMessages := convertObjects |}.

(** A request whose body has no [messages]. *)
Definition emptyRequest : Request := mkRequest (inr (JObj [])).

(** A search result whose page is titled like the tool's error item. *)
Definition searchErrorPage : ChatPage.Item :=
  {| ChatPage.item_title := Some "Search error";
     ChatPage.item_name := None;
     ChatPage.item_link := Some "https://example.com/search-error";
     ChatPage.item_url := None;
     ChatPage.item_snippet := Some "How to fix a search error";
     ChatPage.item_description := None |}.

(** The tool's error item, as the page receives it. *)
Definition searchErrorItem : ChatPage.Item :=
  {| ChatPage.item_title := Some "Search error";
     ChatPage.item_name := None;
     ChatPage.item_link := Some "";
     ChatPage.item_url := None;
     ChatPage.item_snippet := Some "fetch failed";
     ChatPage.item_description := None |}.

(** An assistant message with two text parts around a tool call. *)
Definition twoTextMessage : ChatPage.UIMessage :=
  ChatPage.mkUIMessage "m2" ChatPage.assistant
    (Some [ChatPage.StepStartPart;
           ChatPage.TextPart "Let me search.";
           ChatPage.ToolPart "searchWeb" ChatPage.output_available
             (Some (ChatPage.OutputArray [Some searchErrorItem]));
           ChatPage.TextPart "Here is what I found."]).

End Sample.

(* ===================================================================== *)
(** * Vocabulary of the further properties *)
(* ===================================================================== *)

Module Vocabulary.
Import Route.

(** The session carries no id to look up: there is none along
    [session?.user?.id], or it is the empty string. *)
Definition noSessionId (env : Env) : Prop :=
  sessionUserId (env_session env) = None \/ sessionUserId (env_session env) = Some "".

(** The number that the gate compares with the limit. *)
Definition countToday (env : Env) (userId : string) (d : Db) : Z :=
  Z.of_nat (length (requestsToday env userId d)).

(** A row that the count of [userId] passes over: another user's, or one
    from before the start of the current day. *)
Definition passedOver (env : Env) (userId : string) (r : RequestLog) : Prop :=
  log_userId r <> userId \/ (log_createdAt r < date_trunc_day (env_now env))%Z.

(** The [TypeError] of destructuring [null]. *)
Definition destructureNull : JsThrown :=
  ThrownError "TypeError"
    "Cannot destructure property 'messages' of '(intermediate value)' as it is null.".

(** The error of the validation. *)
Definition noMessagesProvided : JsThrown := ThrownError "Error" "No messages provided".

(** The ways [POST] ends, each with what makes it end so and the world it
    leaves. *)
Inductive POST_case (env : Env) (request : Request) (d : Db)
  : World * Completion Response -> Prop :=
| case_unauthorized :
    noSessionId env ->
    POST_case env request d (mkWorld d [], Returned (errorResponse 401 "Unauthorized"))
| case_user_not_found id :
    sessionUserId (env_session env) = Some id -> id <> "" ->
    filter (fun u => user_id u = id) (users d) = [] ->
    POST_case env request d (mkWorld d [], Returned (errorResponse 401 "User not found"))
| case_unreadable dbUser e :
    resolveUser env d = Some dbUser ->
    req_json request = inl e ->
    POST_case env request d (mkWorld d [], Thrown e)
| case_null dbUser :
    resolveUser env d = Some dbUser ->
    req_json request = inr JNull ->
    POST_case env request d (mkWorld d [], Thrown destructureNull)
| case_no_messages dbUser body :
    resolveUser env d = Some dbUser ->
    req_json request = inr body -> body <> JNull ->
    noMessages (bodyMessages body) = true ->
    POST_case env request d (mkWorld d [], Thrown noMessagesProvided)
| case_denied dbUser body m ms :
    resolveUser env d = Some dbUser ->
    req_json request = inr body -> bodyMessages body = Some (JArr (m :: ms)) ->
    user_isAdmin dbUser = false ->
    (env_DAILY_REQUEST_LIMIT env <= countToday env (user_id dbUser) d)%Z ->
    POST_case env request d
      (mkWorld d [], Returned (errorResponse 429 "Daily request limit reached"))
| case_unconvertible dbUser body m ms f :
    resolveUser env d = Some dbUser ->
    req_json request = inr body -> bodyMessages body = Some (JArr (m :: ms)) ->
    user_isAdmin dbUser = true
    \/ (countToday env (user_id dbUser) d < env_DAILY_REQUEST_LIMIT env)%Z ->
    env_convertToModelMessages env (m :: ms) = inl f ->
    POST_case env request d
      (mkWorld (mkDb (users d)
                     (requestLogs d ++ [mkRequestLog (user_id dbUser) (env_now env)]))
               [InsertRequestLog (mkRequestLog (user_id dbUser) (env_now env))],
       Thrown (conversionError f))
| case_admitted dbUser body m ms converted :
    resolveUser env d = Some dbUser ->
    req_json request = inr body -> bodyMessages body = Some (JArr (m :: ms)) ->
    user_isAdmin dbUser = true
    \/ (countToday env (user_id dbUser) d < env_DAILY_REQUEST_LIMIT env)%Z ->
    env_convertToModelMessages env (m :: ms) = inr converted ->
    POST_case env request d
      (mkWorld (mkDb (users d)
                     (requestLogs d ++ [mkRequestLog (user_id dbUser) (env_now env)]))
               [InsertRequestLog (mkRequestLog (user_id dbUser) (env_now env));
                CallStreamText (streamTextOptions converted)],
       Normal (toUIMessageStreamResponse (streamTextOptions converted))).

(** The effects of [execute], by kind. *)
Definition isSearchCall (e : ToolEffect) : bool :=
  match e with
  | CallSearchSerper _ _ => true
  | _ => false
  end.

Definition isConsoleError (e : ToolEffect) : bool :=
  match e with
  | ConsoleError _ => true
  | _ => false
  end.

(** An item of [execute]'s output as the page finds it in [tp.output]: its
    three properties, all present. *)
Definition received (item : ToolResultItem) : option ChatPage.Item :=
  Some {| ChatPage.item_title := Some (title item);
          ChatPage.item_name := None;
          ChatPage.item_link := Some (link item);
          ChatPage.item_url := None;
          ChatPage.item_snippet := Some (snippet item);
          ChatPage.item_description := None |}.

(** The tool part of a finished [searchWeb] call, as the page receives it. *)
Definition searchWebPart (output : list ToolResultItem) : ChatPage.Part :=
  ChatPage.ToolPart "searchWeb" ChatPage.output_available
    (Some (ChatPage.OutputArray (map received output))).

(** Every character of the string is white space. *)
Fixpoint blank (s : string) : bool :=
  match s with
  | EmptyString => true
  | String a rest => ChatPage.isWhiteSpace a && blank rest
  end.

(** The links of the items that have one, in the items' order. *)
Definition itemLinks (items : list (option ChatPage.Item)) : list string :=
  List.filter ChatPage.nonEmpty (map ChatPage.linkOf items).

(** A part is a tool part that still waits for its output. *)
Definition waiting (p : ChatPage.Part) : Prop :=
  exists toolName output,
    p = ChatPage.ToolPart toolName ChatPage.input_streaming output
    \/ p = ChatPage.ToolPart toolName ChatPage.input_available output.

(** A part is a tool part. *)
Definition isToolPart (p : ChatPage.Part) : bool :=
  match p with
  | ChatPage.ToolPart _ _ _ => true
  | _ => false
  end.

(** The tags of the elements of a rendering, in document order. *)
Fixpoint tagsOf (n : ChatPage.Node) : list string :=
  match n with
  | ChatPage.Elem tag _ children => tag :: flat_map tagsOf children
  | _ => []
  end.

(** What a submit does, besides preventing the default. *)
Definition sends (v : ChatPage.View) : Prop :=
  exists text, ChatPage.sendMessage text ∈ ChatPage.onFormSubmit v.

End Vocabulary.

(* ===================================================================== *)
(** * Part IV: properties of the handler *)
(* ===================================================================== *)

Module RouteProps.
Import Route.

Lemma head_take_1 {A} (l : list A) : head (take 1 l) = head l.
Proof. destruct l as [|a [|b l]]; reflexivity. Qed.

(** Unfolds the handler down to its case analysis. *)
Ltac handler_unfold :=
  unfold run, POST, rateLimit, auth, selectUser, countRequestsToday,
    insertRequestLog, convertToModelMessages, streamText, destructureMessages,
    return_, throw, ret,
    mbind, mret, handler_bind, handler_ret, bind, ret;
  cbn [db effects users requestLogs fst snd].

(** Walks the handler past the session check and the user lookup, given that
    the identity resolves. *)
Ltac pass_lookup H :=
  unfold resolveUser in H; handler_unfold;
  destruct (sessionUserId (env_session _)) as [?id|]; [|discriminate H];
  destruct (bool_decide (_ = "")); [discriminate H|];
  cbn [db]; rewrite head_take_1, H; cbn [db effects users requestLogs fst snd].

(** An identity that does not resolve to a user is answered 401, and the
    world is left as it was. *)
Lemma run_unresolved env request d :
  resolveUser env d = None ->
  exists msg, run env request d = (mkWorld d [], Returned (errorResponse 401 msg)).
Proof.
  unfold resolveUser. handler_unfold.
  destruct (sessionUserId (env_session env)) as [id|]; [|eauto].
  destruct (bool_decide (id = "")); [eauto|].
  cbn [db]. rewrite head_take_1. intros ->. eauto.
Qed.

(** A body that cannot be read throws what reading it throws. *)
Lemma run_unreadable env request d dbUser e :
  resolveUser env d = Some dbUser ->
  req_json request = inl e ->
  run env request d = (mkWorld d [], Thrown e).
Proof. intros Hu Hb. pass_lookup Hu. rewrite Hb. reflexivity. Qed.

Lemma run_null_body env request d dbUser :
  resolveUser env d = Some dbUser ->
  req_json request = inr JNull ->
  exists e, run env request d = (mkWorld d [], Thrown e).
Proof. intros Hu Hb. pass_lookup Hu. rewrite Hb. eauto. Qed.

Lemma noMessages_false messages :
  noMessages messages = false <-> exists m ms, messages = Some (JArr (m :: ms)).
Proof.
  unfold noMessages. split.
  - destruct messages as [[| | | |[|m ms]|]|]; cbn; try discriminate;
      try (destruct (negb _); discriminate). eauto.
  - intros (m & ms & ->). reflexivity.
Qed.

Lemma run_no_messages env request d dbUser body :
  resolveUser env d = Some dbUser ->
  req_json request = inr body -> body <> JNull ->
  noMessages (bodyMessages body) = true ->
  run env request d = (mkWorld d [], Thrown (ThrownError "Error" "No messages provided")).
Proof.
  intros Hu Hb Hn Hm. pass_lookup Hu. rewrite Hb.
  unfold noMessages in Hm.
  destruct body; try congruence; cbn [bodyMessages] in *; rewrite Hm; reflexivity.
Qed.

Lemma run_denied env request d dbUser body m ms :
  resolveUser env d = Some dbUser ->
  req_json request = inr body -> bodyMessages body = Some (JArr (m :: ms)) ->
  user_isAdmin dbUser = false ->
  (env_DAILY_REQUEST_LIMIT env <= Z.of_nat (length (requestsToday env (user_id dbUser) d)))%Z ->
  run env request d
  = (mkWorld d [], Returned (errorResponse 429 "Daily request limit reached")).
Proof.
  intros Hu Hb Hm Ha Hc. pass_lookup Hu. rewrite Hb.
  destruct body; try discriminate Hm; cbn [bodyMessages] in *; rewrite Hm; cbn;
    rewrite Ha; cbn; rewrite bool_decide_eq_true_2 by lia; reflexivity.
Qed.

(** Past the gate the handler records the request, converts the messages
    and, if they convert, calls the model. *)
Lemma run_past_gate env request d dbUser body m ms :
  resolveUser env d = Some dbUser ->
  req_json request = inr body -> bodyMessages body = Some (JArr (m :: ms)) ->
  user_isAdmin dbUser = true
  \/ (Z.of_nat (length (requestsToday env (user_id dbUser) d)) < env_DAILY_REQUEST_LIMIT env)%Z ->
  let row := mkRequestLog (user_id dbUser) (env_now env) in
  run env request d
  = match env_convertToModelMessages env (m :: ms) with
    | inl f =>
        (mkWorld (mkDb (users d) (requestLogs d ++ [row])) [InsertRequestLog row],
         Thrown (conversionError f))
    | inr converted =>
        (mkWorld (mkDb (users d) (requestLogs d ++ [row]))
                 [InsertRequestLog row; CallStreamText (streamTextOptions converted)],
         Normal (toUIMessageStreamResponse (streamTextOptions converted)))
    end.
Proof.
  intros Hu Hb Hm Hc. pass_lookup Hu. rewrite Hb.
  destruct body; try discriminate Hm; cbn [bodyMessages] in *; rewrite Hm; cbn;
    (destruct (user_isAdmin dbUser) eqn:Ha; cbn;
      [|destruct Hc as [Hc|Hc]; [discriminate Hc|];
        rewrite bool_decide_eq_false_2 by lia; cbn]);
    destruct (env_convertToModelMessages env (m :: ms)); reflexivity.
Qed.

Lemma run_admitted env request d dbUser body m ms converted :
  resolveUser env d = Some dbUser ->
  req_json request = inr body -> bodyMessages body = Some (JArr (m :: ms)) ->
  user_isAdmin dbUser = true
  \/ (Z.of_nat (length (requestsToday env (user_id dbUser) d)) < env_DAILY_REQUEST_LIMIT env)%Z ->
  env_convertToModelMessages env (m :: ms) = inr converted ->
  let row := mkRequestLog (user_id dbUser) (env_now env) in
  let opts := streamTextOptions converted in
  run env request d
  = (mkWorld (mkDb (users d) (requestLogs d ++ [row]))
             [InsertRequestLog row; CallStreamText opts],
     Normal (toUIMessageStreamResponse opts)).
Proof.
  intros Hu Hb Hm Hc Hv. cbn zeta. rewrite (run_past_gate _ _ _ _ _ _ _ Hu Hb Hm Hc), Hv.
  reflexivity.
Qed.

Lemma run_unconvertible env request d dbUser body m ms f :
  resolveUser env d = Some dbUser ->
  req_json request = inr body -> bodyMessages body = Some (JArr (m :: ms)) ->
  user_isAdmin dbUser = true
  \/ (Z.of_nat (length (requestsToday env (user_id dbUser) d)) < env_DAILY_REQUEST_LIMIT env)%Z ->
  env_convertToModelMessages env (m :: ms) = inl f ->
  let row := mkRequestLog (user_id dbUser) (env_now env) in
  run env request d
  = (mkWorld (mkDb (users d) (requestLogs d ++ [row])) [InsertRequestLog row],
     Thrown (conversionError f)).
Proof.
  intros Hu Hb Hm Hc Hv. cbn zeta. rewrite (run_past_gate _ _ _ _ _ _ _ Hu Hb Hm Hc), Hv.
  reflexivity.
Qed.


(** A request that is let through is counted from then on. *)
Lemma admitted_request_is_counted env userId d :
  let row := mkRequestLog userId (env_now env) in
  length (requestsToday env userId (mkDb (users d) (requestLogs d ++ [row])))
  = S (length (requestsToday env userId d)).
Proof.
  cbn. unfold requestsToday, date_trunc_day. cbn [requestLogs].
  rewrite filter_app, length_app. cbn.
  rewrite decide_True; [cbn; lia|].
  split; [reflexivity|]. cbn.
  pose proof (Z.mod_pos_bound (env_now env) 86400 ltac:(lia)).
  pose proof (Z.div_mod (env_now env) 86400 ltac:(lia)). lia.
Qed.




(** The count of a day is the same from any clock reading of that day. *)
Lemma requestsToday_atTime env t userId d :
  date_trunc_day t = date_trunc_day (env_now env) ->
  requestsToday (atTime t env) userId d = requestsToday env userId d.
Proof. intros H. unfold requestsToday. cbn [env_now atTime]. rewrite H. reflexivity. Qed.

(** Requests on one day: each one that is let through adds one to the
    count, until the count reaches the limit, where it stays. *)
Lemma count_after_requests env request dbUser body m ms times :
  req_json request = inr body ->
  bodyMessages body = Some (JArr (m :: ms)) ->
  user_isAdmin dbUser = false ->
  Forall (fun t => date_trunc_day t = date_trunc_day (env_now env)) times ->
  forall d,
    resolveUser env d = Some dbUser ->
    resolveUser env (serveAt env request times d) = Some dbUser
    /\ Z.of_nat (length (requestsToday env (user_id dbUser) (serveAt env request times d)))
       = Z.max (Z.of_nat (length (requestsToday env (user_id dbUser) d)))
               (Z.min (Z.of_nat (length (requestsToday env (user_id dbUser) d))
                       + Z.of_nat (length times))
                      (env_DAILY_REQUEST_LIMIT env)).
Proof.
  intros Hb Hm Ha. induction 1 as [|t times Ht _ IH]; intros d Hu.
  - split; [exact Hu|]. cbn. lia.
  - cbn [serveAt length].
    assert (Hu' : resolveUser (atTime t env) d = Some dbUser) by exact Hu.
    set (k := length (requestsToday env (user_id dbUser) d)) in *.
    destruct (Z_lt_le_dec (Z.of_nat k) (env_DAILY_REQUEST_LIMIT env)) as [Hlt|Hle].
    + rewrite (run_past_gate _ _ _ _ _ _ _ Hu' Hb Hm) by
        (right; rewrite requestsToday_atTime by exact Ht; exact Hlt).
      replace (db (fst match env_convertToModelMessages (atTime t env) (m :: ms) with
                       | inl e => _ | inr converted => _ end))
        with (mkDb (users d)
                (requestLogs d ++ [mkRequestLog (user_id dbUser) (env_now (atTime t env))]))
        by (destruct (env_convertToModelMessages (atTime t env) (m :: ms)); reflexivity).
      destruct (IH (mkDb (users d)
                      (requestLogs d ++ [mkRequestLog (user_id dbUser) (env_now (atTime t env))])))
        as [Hu'' Hc]; [exact Hu|].
      split; [exact Hu''|]. rewrite Hc.
      rewrite <- (requestsToday_atTime env t) by exact Ht.
      rewrite admitted_request_is_counted.
      rewrite (requestsToday_atTime env t) by exact Ht. fold k. lia.
    + rewrite (run_denied _ _ _ _ _ _ _ Hu' Hb Hm Ha) by
        (rewrite requestsToday_atTime by exact Ht; exact Hle).
      cbn [fst db]. destruct (IH d Hu) as [Hu'' Hc].
      split; [exact Hu''|]. rewrite Hc. fold k. lia.
Qed.

(** X5. On a day that starts without an event of the user, the request that
    follows [n] others is let through exactly when [n] is below the limit,
    and answered 429 exactly when [n] has reached it: the first [limit]
    requests pass, the next one is denied. If the messages convert, the
    requests that pass are those answered with the stream. *)
Lemma nth_request_of_the_day env request d dbUser body m ms times :
  resolveUser env d = Some dbUser ->
  req_json request = inr body ->
  bodyMessages body = Some (JArr (m :: ms)) ->
  user_isAdmin dbUser = false ->
  Forall (fun t => date_trunc_day t = date_trunc_day (env_now env)) times ->
  requestsToday env (user_id dbUser) d = [] ->
  (letThrough (run env request (serveAt env request times d))
   <-> (Z.of_nat (length times) < env_DAILY_REQUEST_LIMIT env)%Z)
  /\ (snd (run env request (serveAt env request times d))
      = Returned (errorResponse 429 "Daily request limit reached")
      <-> (env_DAILY_REQUEST_LIMIT env <= Z.of_nat (length times))%Z)
  /\ (forall converted,
        env_convertToModelMessages env (m :: ms) = inr converted ->
        allowed (snd (run env request (serveAt env request times d)))
        <-> (Z.of_nat (length times) < env_DAILY_REQUEST_LIMIT env)%Z).
Proof.
  intros Hu Hb Hm Ha Ht H0.
  destruct (count_after_requests env request dbUser body m ms times Hb Hm Ha Ht d Hu)
    as [Hu' Hc].
  rewrite H0 in Hc. cbn [length] in Hc.
  set (d' := serveAt env request times d) in *.
  destruct (Z_lt_le_dec (Z.of_nat (length (requestsToday env (user_id dbUser) d')))
                        (env_DAILY_REQUEST_LIMIT env)) as [Hlt|Hle].
  - rewrite (run_past_gate _ _ _ _ _ _ _ Hu' Hb Hm (or_intror Hlt)).
    split; [|split].
    + split; [lia|]. intros _.
      destruct (env_convertToModelMessages env (m :: ms)); unfold letThrough; cbn; eauto.
    + split; [|lia].
      destruct (env_convertToModelMessages env (m :: ms)); cbn; discriminate.
    + intros converted ->. cbn. split; [lia | reflexivity].
  - rewrite (run_denied _ _ _ _ _ _ _ Hu' Hb Hm Ha Hle). cbn. split; [|split].
    + split; [|lia]. intros (row & rest & H). discriminate H.
    + split; [lia | reflexivity].
    + intros converted _. split; [intros [] | lia].
Qed.

(** C3. A request answered 401 (exactly the requests whose identity does
    not resolve: no session, or no such user in the store) or 429 leaves the
    world as it found it: no request-log event is recorded and the model is
    not called. A request that is allowed records exactly one request-log
    event, for the resolved user, and does so before the one call of the
    model. *)
Theorem rejection_records_nothing env request d :
  let w := fst (run env request d) in
  let outcome := snd (run env request d) in
  (resolveUser env d = None <-> rejectedWith 401 outcome)
  /\ (rejectedWith 401 outcome \/ rejectedWith 429 outcome -> w = mkWorld d [])
  /\ (allowed outcome ->
      exists dbUser opts,
        resolveUser env d = Some dbUser
        /\ db w = mkDb (users d)
                       (requestLogs d ++ [mkRequestLog (user_id dbUser) (env_now env)])
        /\ effects w = [InsertRequestLog (mkRequestLog (user_id dbUser) (env_now env));
                        CallStreamText opts]).
Proof.
  cbn zeta.
  destruct (resolveUser env d) as [dbUser|] eqn:Hu.
  2:{ destruct (run_unresolved env request d Hu) as [msg ->]. cbn.
      repeat split; auto. intros []. }
  destruct (req_json request) as [e|body] eqn:Hb.
  { rewrite (run_unreadable _ _ _ _ _ Hu Hb). cbn.
    repeat split; try discriminate; try tauto. }
  assert (body = JNull \/ body <> JNull) as [->|Hn]
    by (destruct body; auto; right; discriminate).
  { destruct (run_null_body _ _ _ _ Hu Hb) as [e ->]. cbn.
    repeat split; try discriminate; try tauto. }
  destruct (noMessages (bodyMessages body)) eqn:Hm.
  { rewrite (run_no_messages _ _ _ _ _ Hu Hb Hn Hm). cbn.
    repeat split; try discriminate; try tauto. }
  apply noMessages_false in Hm as (m & ms & Hm).
  destruct (user_isAdmin dbUser) eqn:Ha.
  { rewrite (run_past_gate _ _ _ _ _ _ _ Hu Hb Hm (or_introl Ha)).
    destruct (env_convertToModelMessages env (m :: ms)); cbn;
      repeat split; try discriminate; try tauto. intros _. eauto. }
  destruct (Z_lt_le_dec (Z.of_nat (length (requestsToday env (user_id dbUser) d)))
                        (env_DAILY_REQUEST_LIMIT env)) as [Hlt|Hle].
  { rewrite (run_past_gate _ _ _ _ _ _ _ Hu Hb Hm (or_intror Hlt)).
    destruct (env_convertToModelMessages env (m :: ms)); cbn;
      repeat split; try discriminate; try tauto. intros _. eauto. }
  rewrite (run_denied _ _ _ _ _ _ _ Hu Hb Hm Ha Hle). cbn.
  repeat split; try discriminate; try tauto.
Qed.

(** The witness of C3: at the limit nothing is recorded; below it, one row
    and then the model call. *)
Lemma rejection_records_nothing_witness :
  fst (run Sample.strictEnv Sample.sampleRequest Sample.sampleDb)
  = mkWorld Sample.sampleDb []
  /\ exists opts,
       effects (fst (run Sample.sampleEnv Sample.sampleRequest Sample.sampleDb))
       = [InsertRequestLog (mkRequestLog "alice" 1000000); CallStreamText opts].
Proof.
  split.
  - apply (proj1 (proj2 (rejection_records_nothing
             Sample.strictEnv Sample.sampleRequest Sample.sampleDb))).
    right. reflexivity.
  - destruct (proj2 (proj2 (rejection_records_nothing
                Sample.sampleEnv Sample.sampleRequest Sample.sampleDb)) eq_refl)
      as (dbUser & opts & Hu & _ & He).
    injection Hu as <-. exists opts. exact He.
Defined.

(** C9, as stated, fails: the body [null] has no [messages], and for it the
    handler throws the [TypeError] of the destructuring, not "No messages
    provided". *)
Lemma null_body_is_a_type_error :
  resolveUser Sample.sampleEnv Sample.sampleDb = Some Sample.alice
  /\ bodyMessages JNull = None
  /\ run Sample.sampleEnv (mkRequest (inr JNull)) Sample.sampleDb
     = (mkWorld Sample.sampleDb [],
        Thrown (ThrownError "TypeError"
                  "Cannot destructure property 'messages' of '(intermediate value)' as it is null."))
  /\ snd (run Sample.sampleEnv (mkRequest (inr JNull)) Sample.sampleDb)
     <> Thrown (ThrownError "Error" "No messages provided").
Proof. do 3 (split; [reflexivity|]). cbn. discriminate. Qed.

(** C9, amended. For an authenticated request whose user exists and whose
    JSON body is not [null] and has no [messages] field, or one that is not
    an array, or an empty array, the handler throws an error with message
    "No messages provided" and leaves the world as it found it, whatever the
    quota would have said: no request-log event is recorded and the model is
    not called. *)
Theorem no_messages_throws_before_quota env request d dbUser body :
  resolveUser env d = Some dbUser ->
  req_json request = inr body ->
  body <> JNull ->
  bodyMessages body = None
  \/ (exists v, bodyMessages body = Some v /\ isArray (Some v) = false)
  \/ bodyMessages body = Some (JArr []) ->
  run env request d
  = (mkWorld d [], Thrown (ThrownError "Error" "No messages provided")).
Proof.
  intros Hu Hb Hn Hm. apply (run_no_messages _ _ _ _ _ Hu Hb Hn).
  unfold noMessages. destruct Hm as [->|[(v & -> & Hv)| ->]]; [reflexivity| |reflexivity].
  rewrite Hv. cbn [negb]. rewrite orb_true_r. reflexivity.
Qed.

(** The witness of C9: a body without [messages], from a user who is over
    the limit, throws all the same. *)
Lemma no_messages_throws_before_quota_witness :
  run Sample.strictEnv Sample.emptyRequest Sample.sampleDb
  = (mkWorld Sample.sampleDb [], Thrown (ThrownError "Error" "No messages provided")).
Proof.
  apply (no_messages_throws_before_quota Sample.strictEnv Sample.emptyRequest
           Sample.sampleDb Sample.alice (JObj []) eq_refl eq_refl).
  - discriminate.
  - left. reflexivity.
Defined.

End RouteProps.

(* ===================================================================== *)
(** * Part V: properties of the [searchWeb] tool *)
(* ===================================================================== *)

Module ToolProps.
Import Route.

(** [execute] never throws: whatever the provider does, the model gets a
    list of items. *)
Lemma execute_returns searchSerper query abortSignal :
  exists items, snd (execute searchSerper query abortSignal) = inr items.
Proof.
  unfold execute, tryCatch, awaitSearchSerper, consoleError, mbind, mret,
    async_bind, async_ret.
  destruct (searchSerper _ _); cbn; eauto.
Qed.

(** The provider is called once, first, with the query, a count of 10 and
    the signal that [execute] was given. *)
Lemma execute_calls_provider searchSerper query abortSignal :
  head (fst (execute searchSerper query abortSignal))
  = Some (CallSearchSerper {| q := query; num := 10 |} abortSignal)
  /\ length (List.filter (fun e => match e with CallSearchSerper _ _ => true | _ => false end)
                         (fst (execute searchSerper query abortSignal))) = 1.
Proof.
  unfold execute, tryCatch, awaitSearchSerper, consoleError, mbind, mret,
    async_bind, async_ret.
  destruct (searchSerper _ _); cbn; auto.
Qed.

(** C2. When the search call behind [searchWeb] fails (its promise rejects,
    be it a network error, a provider error or a cancellation), [execute]
    does not throw: it logs the message and returns exactly the one-element
    list [[{title: "Search error", link: "", snippet: message}]], where
    [message] is the [message] of the error thrown if it is an [Error], and
    the thrown value as a string if it is not. *)
Theorem execute_failure_is_search_error searchSerper query abortSignal :
  (forall name message,
     searchSerper {| q := query; num := 10 |} abortSignal
     = inl (ThrownError name message) ->
     execute searchSerper query abortSignal
     = ([CallSearchSerper {| q := query; num := 10 |} abortSignal;
         ConsoleError ["searchWeb tool error:"; message]],
        inr [{| title := "Search error"; link := ""; snippet := message |}]))
  /\ (forall asString,
        searchSerper {| q := query; num := 10 |} abortSignal
        = inl (ThrownValue asString) ->
        execute searchSerper query abortSignal
        = ([CallSearchSerper {| q := query; num := 10 |} abortSignal;
            ConsoleError ["searchWeb tool error:"; asString]],
           inr [{| title := "Search error"; link := ""; snippet := asString |}])).
Proof.
  split.
  - intros name message Hfail.
    unfold execute, tryCatch, awaitSearchSerper, consoleError, mbind, mret,
      async_bind, async_ret.
    rewrite Hfail. reflexivity.
  - intros asString Hfail.
    unfold execute, tryCatch, awaitSearchSerper, consoleError, mbind, mret,
      async_bind, async_ret.
    rewrite Hfail. reflexivity.
Qed.

(** The witness of C2: a provider that is cancelled, and one that rejects
    with a string. *)
Lemma execute_failure_is_search_error_witness :
  execute Sample.abortedSearch "rocq" (mkAbortSignal true)
  = ([CallSearchSerper {| q := "rocq"; num := 10 |} (mkAbortSignal true);
      ConsoleError ["searchWeb tool error:"; "This operation was aborted"]],
     inr [{| title := "Search error"; link := "";
             snippet := "This operation was aborted" |}])
  /\ snd (execute Sample.refusedSearch "rocq" (mkAbortSignal false))
     = inr [{| title := "Search error"; link := ""; snippet := "quota exceeded" |}].
Proof.
  split.
  - exact (proj1 (execute_failure_is_search_error Sample.abortedSearch "rocq"
                    (mkAbortSignal true))
             "AbortError" "This operation was aborted" eq_refl).
  - rewrite (proj2 (execute_failure_is_search_error Sample.refusedSearch "rocq"
                      (mkAbortSignal false))
               "quota exceeded" eq_refl).
    reflexivity.
Defined.

(** C5, as stated, fails: [execute] hands on every organic result it is
    given. A provider that answers with eleven organic results makes the
    tool return eleven items. *)
Lemma execute_returns_eleven_items :
  exists items,
    snd (execute Sample.generousSearch "rocq" (mkAbortSignal false)) = inr items
    /\ length items = 11
    /\ ~ length items <= 10.
Proof.
  eexists. split; [reflexivity|]. split; [reflexivity|]. cbn. lia.
Qed.

(** C5, amended. On a successful search [execute] calls the provider once,
    with the given query, a count of 10 and the abort signal it was given,
    and returns one item per organic result of the answer, in the answer's
    order, each made of that result's title, link and snippet; so it returns
    at most 10 items whenever the provider answers with at most 10 organic
    results. *)
Theorem execute_success_maps_organic searchSerper query abortSignal results :
  searchSerper {| q := query; num := 10 |} abortSignal = inr results ->
  exists items,
    execute searchSerper query abortSignal
    = ([CallSearchSerper {| q := query; num := 10 |} abortSignal], inr items)
    /\ length items = length (organic results)
    /\ (forall i r, organic results !! i = Some r ->
          items !! i = Some {| title := org_title r;
                               link := org_link r;
                               snippet := org_snippet r |})
    /\ (length (organic results) <= 10 -> length items <= 10).
Proof.
  intros H.
  unfold execute, tryCatch, awaitSearchSerper, consoleError, mbind, mret,
    async_bind, async_ret.
  rewrite H. cbn. eexists. split; [reflexivity|].
  rewrite length_map. split; [reflexivity|]. split; [|auto].
  intros i r Hr. rewrite list_lookup_fmap, Hr. reflexivity.
Qed.

(** The witness of C5: a provider that answers with three organic results. *)
Lemma execute_success_maps_organic_witness :
  exists items,
    execute Sample.threeResultSearch "rocq" (mkAbortSignal false)
    = ([CallSearchSerper {| q := "rocq"; num := 10 |} (mkAbortSignal false)], inr items)
    /\ length items = 3.
Proof.
  destruct (execute_success_maps_organic Sample.threeResultSearch "rocq"
              (mkAbortSignal false) (mkSerperResults Sample.threeOrganic) eq_refl)
    as (items & He & Hl & _).
  exists items. split; [exact He | exact Hl].
Defined.

End ToolProps.

(* ===================================================================== *)
(** * Part VI: properties of the step loop *)
(* ===================================================================== *)

Module OrchestratorProps.
Import Route Orchestrator.

Lemma stepBoundaries_app (xs ys : list StreamEvent) :
  stepBoundaries (xs ++ ys) = stepBoundaries xs + stepBoundaries ys.
Proof. unfold stepBoundaries. rewrite List.filter_app, length_app. reflexivity. Qed.

Lemma stepBoundaries_deltas (deltas : list string) :
  stepBoundaries (map text_delta deltas) = 0.
Proof. induction deltas as [|x xs IH]; [reflexivity | exact IH]. Qed.

Lemma noError_app (xs ys : list StreamEvent) :
  existsb isError (xs ++ ys) = existsb isError xs || existsb isError ys.
Proof. apply existsb_app. Qed.

Lemma noError_deltas (deltas : list string) :
  existsb isError (map text_delta deltas) = false.
Proof. induction deltas as [|x xs IH]; [reflexivity | exact IH]. Qed.

Section Loop.

Variable searchSerper : SerperInput -> AbortSignal -> JsThrown + SerperResults.
Variable abortSignal : AbortSignal.
Variable model : LanguageModel.
Variable opts : StreamTextOptions.

Abbreviation stepLoop := (stepLoop searchSerper abortSignal model opts).
Abbreviation stepEvents := (stepEvents searchSerper abortSignal).
Abbreviation toolOutputs := (toolOutputs searchSerper abortSignal).

Lemma stepBoundaries_toolCalls (calls : list ToolCall) :
  stepBoundaries (flat_map (toolCallEvents searchSerper abortSignal) calls) = 0.
Proof. induction calls as [|c cs IH]; [reflexivity | exact IH]. Qed.

Lemma noError_toolCalls (calls : list ToolCall) :
  existsb isError (flat_map (toolCallEvents searchSerper abortSignal) calls) = false.
Proof. induction calls as [|c cs IH]; [reflexivity | exact IH]. Qed.

(** The events of one step hold exactly one step boundary, and no error. *)
Lemma stepBoundaries_step deltas calls :
  stepBoundaries (stepEvents deltas calls) = 1.
Proof.
  unfold Orchestrator.stepEvents.
  rewrite !stepBoundaries_app, stepBoundaries_deltas, stepBoundaries_toolCalls.
  reflexivity.
Qed.

Lemma noError_step deltas calls :
  existsb isError (stepEvents deltas calls) = false.
Proof.
  unfold Orchestrator.stepEvents.
  rewrite !noError_app, noError_deltas, noError_toolCalls. reflexivity.
Qed.

Variable maxSteps : nat.
Hypothesis stopWhen_maxSteps : opt_stopWhen opts = stepCountIs maxSteps.

(** The three ways one turn of the loop goes. *)
Lemma stepLoop_fails fuel steps :
  (exists message,
     callWithRetry (model (opt_messages opts) steps) (opt_maxRetries opts) 0
     = TransientFailure message
     \/ callWithRetry (model (opt_messages opts) steps) (opt_maxRetries opts) 0
        = FatalFailure message) ->
  exists message, stepLoop (S fuel) steps = Some [error message].
Proof. intros (message & [H|H]); exists message; cbn [Orchestrator.stepLoop]; rewrite H; reflexivity. Qed.

Lemma stepLoop_stops fuel steps deltas calls :
  callWithRetry (model (opt_messages opts) steps) (opt_maxRetries opts) 0
  = Generated deltas calls ->
  calls = [] \/ length steps + 1 = maxSteps ->
  stepLoop (S fuel) steps = Some (stepEvents deltas calls ++ [done]).
Proof.
  intros H Hstop. cbn [Orchestrator.stepLoop]. rewrite H, stopWhen_maxSteps.
  cbn [isStopConditionMet]. rewrite length_app. cbn [length].
  destruct Hstop as [-> | Hlen].
  - reflexivity.
  - rewrite (proj2 (Nat.eqb_eq _ _) Hlen), andb_false_r. reflexivity.
Qed.

Lemma stepLoop_continues fuel steps deltas calls :
  callWithRetry (model (opt_messages opts) steps) (opt_maxRetries opts) 0
  = Generated deltas calls ->
  calls <> [] -> length steps + 1 <> maxSteps ->
  stepLoop (S fuel) steps
  = option_map (app (stepEvents deltas calls))
      (stepLoop fuel (steps ++ [mkStepResult deltas calls (toolOutputs calls)])).
Proof.
  intros H Hcalls Hlen. cbn [Orchestrator.stepLoop]. rewrite H, stopWhen_maxSteps.
  cbn [isStopConditionMet]. rewrite length_app. cbn [length].
  rewrite (proj2 (Nat.eqb_neq _ _) Hlen), bool_decide_eq_false_2 by assumption.
  reflexivity.
Qed.

(** With [S remaining] steps left before the cap, as many units of fuel are
    enough, whatever the model does: the loop ends, with [done] or with
    [error], after at most [S remaining] step boundaries. *)
Lemma stepLoop_terminates remaining :
  forall steps fuel,
    length steps + S remaining = maxSteps ->
    S remaining <= fuel ->
    exists events,
      stepLoop fuel steps = Some events
      /\ stepBoundaries events <= S remaining
      /\ endsWell events.
Proof.
  induction remaining as [|remaining IH]; intros steps fuel Hlen Hfuel;
    (destruct fuel as [|fuel]; [lia|]);
    destruct (callWithRetry (model (opt_messages opts) steps) (opt_maxRetries opts) 0)
      as [deltas calls|message|message] eqn:Hreply;
    try (destruct (stepLoop_fails fuel steps) as [msg ->]; [eauto|];
         eexists; split; [reflexivity|]; split; [cbn; lia|right; eauto]).
  - rewrite (stepLoop_stops _ _ _ _ Hreply) by (right; lia).
    eexists. split; [reflexivity|]. split.
    + rewrite stepBoundaries_app, stepBoundaries_step. cbn. lia.
    + left. apply last_snoc.
  - destruct (decide (calls = [])) as [Hnil|Hcalls].
    + rewrite (stepLoop_stops _ _ _ _ Hreply) by (left; assumption).
      eexists. split; [reflexivity|]. split.
      * rewrite stepBoundaries_app, stepBoundaries_step. cbn. lia.
      * left. apply last_snoc.
    + rewrite (stepLoop_continues _ _ _ _ Hreply Hcalls) by lia.
      destruct (IH (steps ++ [mkStepResult deltas calls (toolOutputs calls)]) fuel)
        as (events & -> & Hb & He).
      * rewrite length_app. cbn. lia.
      * lia.
      * cbn [option_map]. eexists. split; [reflexivity|]. split.
        -- rewrite stepBoundaries_app, stepBoundaries_step. lia.
        -- destruct He as [He|[message He]]; [left|right; exists message];
             rewrite last_app, He; reflexivity.
Qed.

Hypothesis always_tool : requestsToolOnEveryStep model opts.

(** For a model that asks for a tool call on every step, the loop runs up to
    the cap and then ends with [done]: no error, and exactly as many step
    boundaries as steps were left. *)
Lemma stepLoop_runs_to_cap remaining :
  forall steps fuel,
    length steps + S remaining = maxSteps ->
    S remaining <= fuel ->
    exists events,
      stepLoop fuel steps = Some events
      /\ stepBoundaries events = S remaining
      /\ last events = Some done
      /\ existsb isError events = false.
Proof.
  induction remaining as [|remaining IH]; intros steps fuel Hlen Hfuel;
    (destruct fuel as [|fuel]; [lia|]);
    destruct (always_tool steps) as (deltas & c & cs & Hreply).
  - rewrite (stepLoop_stops _ _ _ _ Hreply) by (right; lia).
    eexists. split; [reflexivity|]. split; [|split].
    + rewrite stepBoundaries_app, stepBoundaries_step. reflexivity.
    + apply last_snoc.
    + rewrite noError_app, noError_step. reflexivity.
  - rewrite (stepLoop_continues _ _ _ _ Hreply) by (congruence || lia).
    destruct (IH (steps ++ [mkStepResult deltas (c :: cs) (toolOutputs (c :: cs))]) fuel)
      as (events & -> & Hb & Hl & He).
    + rewrite length_app. cbn. lia.
    + lia.
    + cbn [option_map]. eexists. split; [reflexivity|]. split; [|split].
      * rewrite stepBoundaries_app, stepBoundaries_step, Hb. reflexivity.
      * rewrite last_app, Hl. reflexivity.
      * rewrite noError_app, noError_step, He. reflexivity.
Qed.

End Loop.

(** A tool call whose search fails is answered like any other, with the
    error item as its output. *)
Lemma toolCallEvents_failure searchSerper abortSignal c err :
  searchSerper {| q := call_query c; num := 10 |} abortSignal = inl err ->
  toolCallEvents searchSerper abortSignal c
  = [tool_call_start (call_id c);
     tool_call_result (call_id c)
       (inr [{| title := "Search error"; link := ""; snippet := errorMessage err |}])].
Proof.
  intros H. unfold toolCallEvents, execute, tryCatch, awaitSearchSerper, consoleError,
    mbind, mret, async_bind, async_ret.
  rewrite H. reflexivity.
Qed.

(** A search that fails does not end the stream: the model that then
    answers in words is heard, and the stream ends with [done]. *)
Example failed_search_then_answer :
  stepLoop Sample.abortedSearch (mkAbortSignal true) Sample.searchOnceModel
    (streamTextOptions [Sample.sampleMessage]) 10 []
  = Some [tool_call_start "call-0";
          tool_call_result "call-0"
            (inr [{| title := "Search error"; link := "";
                     snippet := "This operation was aborted" |}]);
          step_boundary;
          text_delta "I could not search the web.";
          step_boundary;
          done].
Proof. reflexivity. Qed.

(** C4. The options that [POST] hands to [streamText] set a retry cap of 3
    and a step cap of 10. Under them, for any model that asks for a tool
    call on every step, ten units of fuel are enough for the step loop to
    end: it performs exactly ten steps, hence at most ten, emits no error
    event and ends with [done]. *)
Theorem step_loop_is_bounded searchSerper abortSignal model messages fuel :
  requestsToolOnEveryStep model (streamTextOptions messages) ->
  10 <= fuel ->
  opt_maxRetries (streamTextOptions messages) = 3
  /\ opt_stopWhen (streamTextOptions messages) = stepCountIs 10
  /\ exists events,
       stepLoop searchSerper abortSignal model (streamTextOptions messages) fuel []
       = Some events
       /\ stepBoundaries events = 10
       /\ stepBoundaries events <= 10
       /\ existsb isError events = false
       /\ last events = Some done.
Proof.
  intros Hmodel Hfuel. split; [reflexivity|]. split; [reflexivity|].
  destruct (stepLoop_runs_to_cap searchSerper abortSignal model
              (streamTextOptions messages) 10 eq_refl Hmodel 9 [] fuel eq_refl Hfuel)
    as (events & Hrun & Hb & Hl & He).
  exists events. rewrite Hb. auto.
Qed.

(** The witness of C4: a model that asks for a search on every step, run
    with plenty of fuel. *)
Lemma step_loop_is_bounded_witness :
  exists events,
    stepLoop Sample.threeResultSearch (mkAbortSignal false) Sample.eagerModel
      (streamTextOptions [Sample.sampleMessage]) 50 []
    = Some events
    /\ stepBoundaries events = 10
    /\ last events = Some done.
Proof.
  destruct (step_loop_is_bounded Sample.threeResultSearch (mkAbortSignal false)
              Sample.eagerModel [Sample.sampleMessage] 50) as (_ & _ & events & H).
  - intros steps. do 3 eexists. reflexivity.
  - lia.
  - exists events. destruct H as (Hrun & Hb & _ & _ & Hl). auto.
Defined.

End OrchestratorProps.

(* ===================================================================== *)
(** * Part VII: properties of the chat page *)
(* ===================================================================== *)

Module ChatPageProps.
Import ChatPage.

(** ** Result items *)

Lemma nonEmpty_false (s : string) : nonEmpty s = false <-> s = "".
Proof.
  unfold nonEmpty. rewrite negb_false_iff, bool_decide_eq_true. reflexivity.
Qed.

(** The rendering of an item, by whether it has a link. *)
Lemma renderItem_linked idx item :
  nonEmpty (linkOf item) = true ->
  hrefs (renderItem idx item) = [linkOf item].
Proof.
  intros H. unfold renderItem. rewrite H.
  destruct (nonEmpty (snippetOf item)); reflexivity.
Qed.

Lemma renderItem_unlinked idx item :
  nonEmpty (linkOf item) = false ->
  renderItem idx item
  = Elem "li"
      [attr "key" (pretty idx);
       attr "className" "px-3 py-2 transition-colors hover:bg-gray-800/80"]
      [Elem "div" [attr "className" "flex flex-col gap-1"]
         ([Elem "div" [attr "className" "text-sm font-medium text-blue-300"]
             [Elem "span" [attr "className" "text-red-300"] [Text (titleOf idx item)]]]
          ++ (if nonEmpty (snippetOf item)
              then [Elem "div" [attr "className" "text-xs text-red-300"]
                      [Text (snippetOf item)]]
              else []))].
Proof.
  intros H. unfold renderItem, isError. rewrite H, orb_true_r.
  destruct (nonEmpty (snippetOf item)); reflexivity.
Qed.

(** C6, as stated, fails: an item whose title is "Search error" counts as
    an error item, and yet, having a link, it is rendered with a hyperlink
    to it. *)
Lemma search_error_title_still_links :
  isError 0 (Some Sample.searchErrorPage) = true
  /\ hrefs (renderItem 0 (Some Sample.searchErrorPage))
     = ["https://example.com/search-error"].
Proof. split; reflexivity. Qed.

(** C6, amended. The presenter renders a hyperlink for an item exactly when
    the item has a non-empty link, and then to that link. An item without a
    link, such as the error item that the tool returns, counts as an error
    item and is rendered without a hyperlink: its title is a red span that
    links nowhere, and its snippet, if any, is red. *)
Theorem item_links_iff_it_has_a_link idx item :
  hrefs (renderItem idx item) = (if nonEmpty (linkOf item) then [linkOf item] else [])
  /\ (linkOf item = "" ->
      isError idx item = true
      /\ hrefs (renderItem idx item) = []
      /\ renderItem idx item
         = Elem "li"
             [attr "key" (pretty idx);
              attr "className" "px-3 py-2 transition-colors hover:bg-gray-800/80"]
             [Elem "div" [attr "className" "flex flex-col gap-1"]
                ([Elem "div" [attr "className" "text-sm font-medium text-blue-300"]
                    [Elem "span" [attr "className" "text-red-300"]
                       [Text (titleOf idx item)]]]
                 ++ (if nonEmpty (snippetOf item)
                     then [Elem "div" [attr "className" "text-xs text-red-300"]
                             [Text (snippetOf item)]]
                     else []))]).
Proof.
  split.
  - destruct (nonEmpty (linkOf item)) eqn:H.
    + apply renderItem_linked, H.
    + rewrite (renderItem_unlinked _ _ H).
      destruct (nonEmpty (snippetOf item)); reflexivity.
  - intros H. apply nonEmpty_false in H.
    split; [|split].
    + unfold isError. rewrite H. apply orb_true_r.
    + rewrite (renderItem_unlinked _ _ H).
      destruct (nonEmpty (snippetOf item)); reflexivity.
    + apply renderItem_unlinked, H.
Qed.

(** The witness of C6: the tool's error item. *)
Lemma item_links_iff_it_has_a_link_witness :
  isError 0 (Some Sample.searchErrorItem) = true
  /\ hrefs (renderItem 0 (Some Sample.searchErrorItem)) = [].
Proof.
  destruct (proj2 (item_links_iff_it_has_a_link 0 (Some Sample.searchErrorItem)) eq_refl)
    as (He & Hh & _).
  split; [exact He | exact Hh].
Defined.


(** ** The message text *)

(** Only a text part has type [text]. *)
Lemma partType_text p : partType p = "text" <-> exists text, p = TextPart text.
Proof.
  split.
  - destruct p; cbn; intros H; try discriminate H; eauto;
      vm_compute in H; discriminate H.
  - intros [text ->]. reflexivity.
Qed.

Lemma find_text_part ps :
  match List.find (fun p => bool_decide (partType p = "text")) ps with
  | Some textPart => default "" (partText textPart)
  | None => ""
  end = firstTextPart ps.
Proof.
  induction ps as [|p ps IH]; [reflexivity|].
  cbn [List.find]. case_bool_decide as H.
  - apply partType_text in H as [text ->]. reflexivity.
  - rewrite IH. destruct p; try reflexivity.
    exfalso. apply H. reflexivity.
Qed.

Lemma messageText_firstTextPart message :
  messageText message = firstTextPart (default [] (parts message)).
Proof.
  unfold messageText. destruct (parts message) as [ps|]; [|reflexivity].
  apply find_text_part.
Qed.

(** Parts before the first text part are passed over, parts after it are not
    looked at. *)
Lemma firstTextPart_app before text after :
  Forall (fun p => partType p <> "text") before ->
  firstTextPart (before ++ TextPart text :: after) = text.
Proof.
  induction 1 as [|p before Hp _ IH]; [reflexivity|].
  cbn. destruct p; try exact IH. exfalso. apply Hp. reflexivity.
Qed.

Lemma flat_map_imap_nil {A B C} (g : B -> list C) (l : list A) :
  forall f : nat -> A -> B, (forall i x, g (f i x) = []) -> flat_map g (imap f l) = [].
Proof.
  induction l as [|x l IH]; intros f Hf; [reflexivity|].
  cbn. rewrite Hf. apply IH. intros i y. apply Hf.
Qed.

Lemma chatMessageTexts_renderItem idx item : chatMessageTexts (renderItem idx item) = [].
Proof.
  unfold renderItem.
  destruct (nonEmpty (linkOf item)), (nonEmpty (snippetOf item)); reflexivity.
Qed.

(** A tool panel holds no [ChatMessage]. *)
Lemma chatMessageTexts_renderToolPart expandedResults messageId index tp :
  chatMessageTexts (renderToolPart expandedResults messageId index tp) = [].
Proof.
  unfold renderToolPart, Collapse.
  destruct (negb (bool_decide (outputItems tp = []))); cbn; [|reflexivity].
  rewrite (flat_map_imap_nil _ _ _ chatMessageTexts_renderItem). reflexivity.
Qed.

Lemma chatMessageTexts_renderMessage expandedResults userName message :
  chatMessageTexts (renderMessage expandedResults userName message) = [messageText message].
Proof.
  unfold renderMessage. cbn [chatMessageTexts].
  rewrite !flat_map_app.
  rewrite (flat_map_imap_nil _ _ _ (chatMessageTexts_renderToolPart _ _)).
  destruct (toolRunning message), (toolInfoOf message); reflexivity.
Qed.

(** C10. The text that a rendered message displays (the [text] prop of its
    [ChatMessage]) is the text of the first part of type [text], or the
    empty string if the message has no such part; a text part that comes
    after the first one is never displayed. *)
Theorem displayed_text_is_first_text_part expandedResults userName message :
  chatMessageTexts (renderMessage expandedResults userName message)
  = [firstTextPart (default [] (parts message))]
  /\ (forall before text after,
        Forall (fun p => partType p <> "text") before ->
        parts message = Some (before ++ TextPart text :: after) ->
        chatMessageTexts (renderMessage expandedResults userName message) = [text]).
Proof.
  rewrite chatMessageTexts_renderMessage, messageText_firstTextPart. split; [reflexivity|].
  intros before text after Hb ->. cbn. rewrite firstTextPart_app by exact Hb.
  reflexivity.
Qed.

(** The witness of C10: a message with a second text part after a tool
    call. *)
Lemma displayed_text_is_first_text_part_witness :
  chatMessageTexts (renderMessage ∅ "Ada" Sample.twoTextMessage) = ["Let me search."].
Proof.
  refine (proj2 (displayed_text_is_first_text_part ∅ "Ada" Sample.twoTextMessage)
            [StepStartPart] "Let me search." _ _ eq_refl).
  repeat constructor. discriminate.
Defined.


(** ** The expand/collapse map *)

Lemma toggle_lookup_same (expandedResults : gmap string bool) key :
  toggle key expandedResults !! key = Some (negb (isExpanded expandedResults key)).
Proof. unfold toggle, isExpanded. apply lookup_insert_eq. Qed.

Lemma toggle_lookup_other (expandedResults : gmap string bool) key other :
  other <> key -> toggle key expandedResults !! other = expandedResults !! other.
Proof. intros H. unfold toggle. apply lookup_insert_ne. congruence. Qed.

(** Decimal numerals hold no dash. *)
Lemma dashFree_pretty_N_go (x : N) :
  forall s, dashFree s = true -> dashFree (pretty_N_go x s) = true.
Proof.
  induction (N.lt_wf_0 x) as [x _ IH]. intros s Hs.
  destruct (N.eq_dec x 0%N) as [->|Hx].
  - rewrite pretty_N_go_0. exact Hs.
  - rewrite pretty_N_go_step by lia. apply IH.
    + apply N.div_lt; lia.
    + cbn [dashFree]. rewrite Hs, andb_true_r.
      unfold pretty_N_char. repeat case_match; reflexivity.
Qed.

Lemma dashFree_pretty (n : nat) : dashFree (pretty n) = true.
Proof.
  unfold pretty, pretty_nat, pretty, pretty_N.
  case_decide; [reflexivity|]. apply dashFree_pretty_N_go. reflexivity.
Qed.

Lemma string_app_nil (s : string) : "" +:+ s = s.
Proof. reflexivity. Qed.

Lemma string_app_cons a (s t : string) : String a s +:+ t = String a (s +:+ t).
Proof. reflexivity. Qed.

Lemma dashFree_app_dash (s t : string) : dashFree (s +:+ "-" +:+ t) = false.
Proof.
  induction s as [|a s IH]; [reflexivity|].
  rewrite string_app_cons. cbn [dashFree]. rewrite IH. apply andb_false_r.
Qed.

(** A dash followed by a numeral marks the end of the string before it. *)
Lemma app_dash_inj (s1 : string) :
  forall s2 t1 t2,
    dashFree t1 = true -> dashFree t2 = true ->
    s1 +:+ "-" +:+ t1 = s2 +:+ "-" +:+ t2 -> s1 = s2 /\ t1 = t2.
Proof.
  induction s1 as [|a s1 IH]; intros [|b s2] t1 t2 H1 H2 H;
    rewrite ?string_app_nil in H; rewrite 1?(string_app_cons a), 1?(string_app_cons b) in H.
  - rewrite !string_app_cons, !string_app_nil in H. injection H as ->. auto.
  - rewrite string_app_cons, string_app_nil in H.
    injection H as _ ->. rewrite dashFree_app_dash in H1. discriminate H1.
  - rewrite (string_app_cons _ "" t2), string_app_nil in H.
    injection H as _ <-. rewrite dashFree_app_dash in H2. discriminate H2.
  - injection H as -> H. destruct (IH _ _ _ H1 H2 H) as [-> ->]. auto.
Qed.

(** Two tool calls have the same key only if they are the same call of the
    same message. *)
Lemma resultsKey_inj messageId1 index1 messageId2 index2 :
  resultsKey messageId1 index1 = resultsKey messageId2 index2 ->
  messageId1 = messageId2 /\ index1 = index2.
Proof.
  unfold resultsKey. intros H.
  apply app_dash_inj in H as [-> H]; auto using dashFree_pretty.
  split; [reflexivity|]. apply (inj pretty). exact H.
Qed.

Lemma onClicks_renderItem idx item : onClicks (renderItem idx item) = [].
Proof.
  unfold renderItem.
  destruct (nonEmpty (linkOf item)), (nonEmpty (snippetOf item)); reflexivity.
Qed.

Lemma flagsOf_renderItem name idx item : flagsOf name (renderItem idx item) = [].
Proof.
  unfold renderItem.
  destruct (nonEmpty (linkOf item)), (nonEmpty (snippetOf item)); reflexivity.
Qed.

(** What the panel of a tool part with items shows of the map, and what its
    button does to it. *)
Lemma panel_reads_and_toggles (m : gmap string bool) messageId index tp :
  outputItems tp <> [] ->
  flagsOf "aria-expanded" (renderToolPart m messageId index tp)
  = [isExpanded m (resultsKey messageId index)]
  /\ flagsOf "aria-hidden" (renderToolPart m messageId index tp)
     = [negb (isExpanded m (resultsKey messageId index))]
  /\ onClicks (renderToolPart m messageId index tp) = [toggle (resultsKey messageId index)].
Proof.
  intros H. unfold renderToolPart, Collapse.
  rewrite bool_decide_eq_false_2 by exact H. cbn.
  rewrite (flat_map_imap_nil _ _ _ (flagsOf_renderItem "aria-expanded")).
  rewrite (flat_map_imap_nil _ _ _ (flagsOf_renderItem "aria-hidden")).
  rewrite (flat_map_imap_nil _ _ _ onClicks_renderItem).
  auto.
Qed.

Lemma renderToolPart_other_key (m : gmap string bool) key messageId index tp :
  key <> resultsKey messageId index ->
  renderToolPart (toggle key m) messageId index tp = renderToolPart m messageId index tp.
Proof.
  intros H. unfold renderToolPart, isExpanded.
  rewrite toggle_lookup_other by congruence. reflexivity.
Qed.

(** C8. The expand/collapse state is one map from strings to booleans,
    empty when the page is first rendered. The panel of tool call [index]
    of message [messageId] is rendered from the map's value at the key
    [messageId + "-" + index]: expanded if the key is there and true,
    collapsed if it is false or absent, as every key is at first. The
    panel's button hands [setExpandedResults] an updater that sets this key
    to the negation of what it was rendered as and leaves the value, or the
    absence, of every other key as it was; after a click the panel is
    rendered the other way, and the panel of any other tool call of any
    message is rendered as before. *)
Theorem toggle_flips_exactly_one_key (expandedResults : gmap string bool)
    messageId index tp :
  outputItems tp <> [] ->
  (forall authenticated, ChatPage.expandedResults (view (initial authenticated)) = ∅)
  /\ flagsOf "aria-expanded" (renderToolPart expandedResults messageId index tp)
     = [isExpanded expandedResults (resultsKey messageId index)]
  /\ flagsOf "aria-hidden" (renderToolPart expandedResults messageId index tp)
     = [negb (isExpanded expandedResults (resultsKey messageId index))]
  /\ (expandedResults !! resultsKey messageId index = None ->
      flagsOf "aria-expanded" (renderToolPart expandedResults messageId index tp) = [false]
      /\ flagsOf "aria-hidden" (renderToolPart expandedResults messageId index tp) = [true])
  /\ exists click,
       onClicks (renderToolPart expandedResults messageId index tp) = [click]
       /\ (forall c,
             ChatPage.expandedResults (view (step c (clickToggle (resultsKey messageId index))))
             = click (ChatPage.expandedResults (view c)))
       /\ (forall prev,
             click prev !! resultsKey messageId index
             = Some (negb (isExpanded prev (resultsKey messageId index))))
       /\ (forall prev other,
             other <> resultsKey messageId index -> click prev !! other = prev !! other)
       /\ flagsOf "aria-expanded"
            (renderToolPart (click expandedResults) messageId index tp)
          = [negb (isExpanded expandedResults (resultsKey messageId index))]
       /\ (forall messageId' index' tp',
             (messageId', index') <> (messageId, index) ->
             renderToolPart (click expandedResults) messageId' index' tp'
             = renderToolPart expandedResults messageId' index' tp').
Proof.
  intros Hitems.
  destruct (panel_reads_and_toggles expandedResults messageId index tp Hitems)
    as (Hexp & Hhid & Hclick).
  split; [reflexivity|]. split; [exact Hexp|]. split; [exact Hhid|]. split.
  - intros Hnone. rewrite Hexp, Hhid. unfold isExpanded. rewrite Hnone. auto.
  - exists (toggle (resultsKey messageId index)).
    split; [exact Hclick|]. split; [reflexivity|]. split; [|split; [|split]].
    + intros prev. apply toggle_lookup_same.
    + intros prev other. apply toggle_lookup_other.
    + destruct (panel_reads_and_toggles
                  (toggle (resultsKey messageId index) expandedResults)
                  messageId index tp Hitems) as (-> & _).
      unfold isExpanded at 1. rewrite toggle_lookup_same. reflexivity.
    + intros messageId' index' tp' Hne. apply renderToolPart_other_key.
      intros H. apply resultsKey_inj in H as [-> ->]. apply Hne. reflexivity.
Qed.

(** The witness of C8: the first panel of message [m1] is collapsed at
    first; a click on its button expands it and leaves the message's second
    panel as it was. *)
Lemma toggle_flips_exactly_one_key_witness :
  flagsOf "aria-expanded"
    (renderToolPart ∅ "m1" 0 (Vocabulary.searchWebPart [Route.mkToolResultItem "t" "l" "s"]))
  = [false]
  /\ exists click,
       onClicks
         (renderToolPart ∅ "m1" 0
            (Vocabulary.searchWebPart [Route.mkToolResultItem "t" "l" "s"]))
       = [click]
       /\ flagsOf "aria-expanded"
            (renderToolPart (click ∅) "m1" 0
               (Vocabulary.searchWebPart [Route.mkToolResultItem "t" "l" "s"]))
          = [true]
       /\ renderToolPart (click ∅) "m1" 1
            (Vocabulary.searchWebPart [Route.mkToolResultItem "t" "l" "s"])
          = renderToolPart ∅ "m1" 1
              (Vocabulary.searchWebPart [Route.mkToolResultItem "t" "l" "s"]).
Proof.
  destruct (toggle_flips_exactly_one_key ∅ "m1" 0
              (Vocabulary.searchWebPart [Route.mkToolResultItem "t" "l" "s"]))
    as (_ & Hexp & _ & _ & click & Hclick & _ & _ & _ & Hafter & Hother).
  - discriminate.
  - split; [exact Hexp|]. exists click. split; [exact Hclick|]. split; [exact Hafter|].
    apply Hother. discriminate.
Defined.

(** The panel of a tool call depends on the map only through what the
    map holds at the call's key. *)
Lemma renderToolPart_reads_its_key (m m' : gmap string bool) messageId index tp :
  isExpanded m (resultsKey messageId index) = isExpanded m' (resultsKey messageId index) ->
  renderToolPart m messageId index tp = renderToolPart m' messageId index tp.
Proof. intros H. unfold renderToolPart. rewrite H. reflexivity. Qed.

(** A panel is rendered collapsed as long as its key is absent. *)
Lemma renderToolPart_default_collapsed messageId index tp :
  outputItems tp <> [] ->
  renderToolPart ∅ messageId index tp
  = Elem "div" [attr "key" (resultsKey messageId index)]
      [Elem "div" []
         [Elem "div" []
            [Elem "Search" [] [];
             Elem "span" [] [Text (toolNameOf tp +:+ " results")];
             Elem "span" [] [Text (resultsLabel (length (outputItems tp)))]];
          Elem "button"
            [attr "type" "button";
             onClick (toggle (resultsKey messageId index));
             flag "aria-expanded" false]
            [Elem "span" [] [Text "Show"];
             Elem "ChevronDown" [attr "className" "rotate-0"] []]];
       Collapse false
         [Elem "ul" [attr "className" "divide-y divide-gray-700"]
            (imap renderItem (outputItems tp))]].
Proof.
  intros H. unfold renderToolPart.
  rewrite bool_decide_eq_false_2 by exact H. reflexivity.
Qed.


(** ** One request at a time *)









End ChatPageProps.

(* ===================================================================== *)
(** * Part VIII: further properties of the handler *)
(* ===================================================================== *)

Module HandlerFacts.
Import Route Vocabulary RouteProps.

(** The handler ends in one of the seven ways of [POST_case]. *)
Lemma POST_run env request d : POST_case env request d (run env request d).
Proof.
  destruct (sessionUserId (env_session env)) as [id|] eqn:Hs.
  2:{ replace (run env request d)
        with (mkWorld d [], @Returned Response (errorResponse 401 "Unauthorized"))
        by (handler_unfold; rewrite Hs; reflexivity).
      constructor. left. exact Hs. }
  destruct (decide (id = "")) as [->|Hid].
  { replace (run env request d)
      with (mkWorld d [], @Returned Response (errorResponse 401 "Unauthorized"))
      by (handler_unfold; rewrite Hs; reflexivity).
    constructor. right. exact Hs. }
  destruct (filter (fun u => user_id u = id) (users d)) as [|dbUser rest] eqn:Hf.
  { replace (run env request d)
      with (mkWorld d [], @Returned Response (errorResponse 401 "User not found"))
      by (handler_unfold; rewrite Hs, bool_decide_eq_false_2 by exact Hid;
          cbn [db]; rewrite Hf; reflexivity).
    econstructor; eassumption. }
  assert (Hu : resolveUser env d = Some dbUser).
  { unfold resolveUser. rewrite Hs, bool_decide_eq_false_2, Hf by exact Hid. reflexivity. }
  destruct (req_json request) as [e|body] eqn:Hb.
  { rewrite (run_unreadable _ _ _ _ _ Hu Hb). econstructor; eassumption. }
  assert (body = JNull \/ body <> JNull) as [->|Hn]
    by (destruct body; auto; right; discriminate).
  { replace (run env request d) with (mkWorld d [], @Thrown Response destructureNull)
      by (pass_lookup Hu; rewrite Hb; reflexivity).
    econstructor; eassumption. }
  destruct (noMessages (bodyMessages body)) eqn:Hm.
  { rewrite (run_no_messages _ _ _ _ _ Hu Hb Hn Hm). econstructor; eassumption. }
  apply noMessages_false in Hm as (m & ms & Hm).
  destruct (user_isAdmin dbUser) eqn:Ha.
  { destruct (env_convertToModelMessages env (m :: ms)) as [f|converted] eqn:Hv.
    - rewrite (run_unconvertible _ _ _ _ _ _ _ _ Hu Hb Hm (or_introl Ha) Hv).
      eapply case_unconvertible; eauto.
    - rewrite (run_admitted _ _ _ _ _ _ _ _ Hu Hb Hm (or_introl Ha) Hv).
      eapply case_admitted; eauto. }
  destruct (Z_lt_le_dec (countToday env (user_id dbUser) d) (env_DAILY_REQUEST_LIMIT env))
    as [Hlt|Hle].
  { destruct (env_convertToModelMessages env (m :: ms)) as [f|converted] eqn:Hv.
    - rewrite (run_unconvertible _ _ _ _ _ _ _ _ Hu Hb Hm (or_intror Hlt) Hv).
      eapply case_unconvertible; eauto.
    - rewrite (run_admitted _ _ _ _ _ _ _ _ Hu Hb Hm (or_intror Hlt) Hv).
      eapply case_admitted; eauto. }
  rewrite (run_denied _ _ _ _ _ _ _ Hu Hb Hm Ha Hle). eapply case_denied; eauto.
Qed.

(** A resolved identity is a session id that is not empty. *)
Lemma resolveUser_Some env d dbUser :
  resolveUser env d = Some dbUser ->
  exists id, sessionUserId (env_session env) = Some id /\ id <> ""
             /\ head (filter (fun u => user_id u = id) (users d)) = Some dbUser.
Proof.
  unfold resolveUser. destruct (sessionUserId _) as [id|]; [|discriminate].
  case_bool_decide; [discriminate|]. eauto.
Qed.

Lemma resolved_has_session env d dbUser :
  resolveUser env d = Some dbUser -> ~ noSessionId env.
Proof.
  intros Hu [H|H]; apply resolveUser_Some in Hu as (id & Hs & Hid & _); congruence.
Qed.

Lemma resolved_is_in_store env d dbUser :
  resolveUser env d = Some dbUser ->
  ~ exists id, sessionUserId (env_session env) = Some id /\ id <> ""
               /\ forall u, u ∈ users d -> user_id u <> id.
Proof.
  intros Hu (id & Hs & _ & Hall).
  apply resolveUser_Some in Hu as (id' & Hs' & _ & Hh).
  assert (id' = id) as -> by congruence.
  apply head_Some in Hh as [rest Hh].
  assert (dbUser ∈ filter (fun u => user_id u = id) (users d)) as Hin
    by (rewrite Hh; left).
  apply list_elem_of_filter in Hin as [Hid Hin]. exact (Hall _ Hin Hid).
Qed.

(** X1. The handler answers 401 with body [{error: "Unauthorized"}] exactly
    when the session carries no user id or an empty one, whatever the store
    and the body hold; it answers 401 with body [{error: "User not found"}]
    exactly when the session's id is not empty and no row of [users] has
    it. *)
Theorem which_401 env request d :
  (snd (run env request d) = Returned (errorResponse 401 "Unauthorized")
   <-> noSessionId env)
  /\ (snd (run env request d) = Returned (errorResponse 401 "User not found")
      <-> exists id, sessionUserId (env_session env) = Some id /\ id <> ""
                     /\ forall u, u ∈ users d -> user_id u <> id).
Proof.
  destruct (POST_run env request d) as
    [Hn | id Hs Hid Hf | dbUser e Hu Hb | dbUser Hu Hb | dbUser body Hu Hb Hn Hm
     | dbUser body m ms Hu Hb Hm Ha Hc | dbUser body m ms f Hu Hb Hm Hc Hv
     | dbUser body m ms converted Hu Hb Hm Hc Hv]; cbn [snd].
  - split; [tauto|]. split; [discriminate|].
    intros (id & Hs & Hid & _). destruct Hn; congruence.
  - split.
    + split; [discriminate|]. intros [H|H]; congruence.
    + split; [|reflexivity]. intros _. exists id. split; [exact Hs|]. split; [exact Hid|].
      intros u Hin Hu. assert (u ∈ filter (fun u => user_id u = id) (users d)) as H
        by (apply list_elem_of_filter; auto).
      rewrite Hf in H. inversion H.
  - pose proof (resolved_has_session _ _ _ Hu). pose proof (resolved_is_in_store _ _ _ Hu).
    split; (split; [discriminate | tauto]).
  - pose proof (resolved_has_session _ _ _ Hu). pose proof (resolved_is_in_store _ _ _ Hu).
    split; (split; [discriminate | tauto]).
  - pose proof (resolved_has_session _ _ _ Hu). pose proof (resolved_is_in_store _ _ _ Hu).
    split; (split; [discriminate | tauto]).
  - pose proof (resolved_has_session _ _ _ Hu). pose proof (resolved_is_in_store _ _ _ Hu).
    split; (split; [discriminate | tauto]).
  - pose proof (resolved_has_session _ _ _ Hu). pose proof (resolved_is_in_store _ _ _ Hu).
    split; (split; [discriminate | tauto]).
  - pose proof (resolved_has_session _ _ _ Hu). pose proof (resolved_is_in_store _ _ _ Hu).
    split; (split; [discriminate | tauto]).
Qed.


(** X2. For a user who is found, a body that cannot be used ends the handler
    with an exception and the world untouched: a body that is not JSON
    throws what [request.json()] throws; the body [null] throws the
    [TypeError] of the destructuring; a body that is a boolean, a number, a
    string or an array has no [messages] and throws "No messages
    provided". *)
Theorem unusable_body_throws env request d dbUser :
  resolveUser env d = Some dbUser ->
  (forall e, req_json request = inl e ->
             run env request d = (mkWorld d [], Thrown e))
  /\ (req_json request = inr JNull ->
      run env request d = (mkWorld d [], Thrown destructureNull))
  /\ (forall body,
        req_json request = inr body ->
        match body with JNull | JObj _ => False | _ => True end ->
        run env request d = (mkWorld d [], Thrown noMessagesProvided)).
Proof.
  intros Hu. split; [|split].
  - intros e Hb. exact (run_unreadable _ _ _ _ _ Hu Hb).
  - intros Hb. pass_lookup Hu. rewrite Hb. reflexivity.
  - intros body Hb Hshape. apply (run_no_messages _ _ _ _ _ Hu Hb).
    + destruct body; (contradiction || discriminate).
    + destruct body; (contradiction || reflexivity).
Qed.

(** The witness of X2: [alice] posts the body [[]]. *)
Lemma unusable_body_throws_witness :
  run Sample.sampleEnv (mkRequest (inr (JArr []))) Sample.sampleDb
  = (mkWorld Sample.sampleDb [], Thrown noMessagesProvided).
Proof.
  exact (proj2 (proj2 (unusable_body_throws Sample.sampleEnv (mkRequest (inr (JArr [])))
                         Sample.sampleDb Sample.alice eq_refl))
           (JArr []) eq_refl I).
Defined.

(** X3. For a user who is found and a body that parses, the handler throws
    "No messages provided" exactly when the body is not [null] and its
    [messages] is not a non-empty array: every non-empty array passes the
    validation, whatever its elements. *)
Theorem validation_passes_nonempty_arrays env request d dbUser body :
  resolveUser env d = Some dbUser ->
  req_json request = inr body ->
  snd (run env request d) = Thrown noMessagesProvided
  <-> body <> JNull /\ ~ exists m ms, bodyMessages body = Some (JArr (m :: ms)).
Proof.
  intros Hu Hb.
  destruct (POST_run env request d) as
    [Hn | id Hs Hid Hf | dbUser' e Hu' Hb' | dbUser' Hu' Hb' | dbUser' body' Hu' Hb' Hn Hm
     | dbUser' body' m ms Hu' Hb' Hm Ha Hc | dbUser' body' m ms f Hu' Hb' Hm Hc Hv
     | dbUser' body' m ms converted Hu' Hb' Hm Hc Hv]; cbn [snd].
  - destruct (resolved_has_session _ _ _ Hu Hn).
  - destruct (resolved_is_in_store _ _ _ Hu). exists id. repeat split; auto.
    intros u Hin Hid'. assert (u ∈ filter (fun u => user_id u = id) (users d)) as H
      by (apply list_elem_of_filter; auto).
    rewrite Hf in H. inversion H.
  - congruence.
  - assert (body = JNull) as -> by congruence. split; [discriminate|]. intros [H _]. congruence.
  - assert (body' = body) as -> by congruence. split; [|reflexivity]. intros _.
    split; [exact Hn|]. intros (m & ms & H). rewrite H in Hm. discriminate Hm.
  - assert (body' = body) as -> by congruence. split; [discriminate|].
    intros [_ H]. destruct H. eauto.
  - assert (body' = body) as -> by congruence. split; [destruct f; discriminate|].
    intros [_ H]. destruct H. eauto.
  - assert (body' = body) as -> by congruence. split; [discriminate|].
    intros [_ H]. destruct H. eauto.
Qed.

(** The witness of X3: an array of one [null] passes the validation. *)
Lemma validation_passes_nonempty_arrays_witness :
  snd (run Sample.sampleEnv (mkRequest (inr (JObj [("messages", JArr [JNull])])))
         Sample.sampleDb)
  <> Thrown noMessagesProvided.
Proof.
  intros H.
  apply (validation_passes_nonempty_arrays Sample.sampleEnv
           (mkRequest (inr (JObj [("messages", JArr [JNull])]))) Sample.sampleDb
           Sample.alice (JObj [("messages", JArr [JNull])]) eq_refl eq_refl) in H as [_ H].
  apply H. exists JNull, []. reflexivity.
Defined.

(** The handler without a session id, and without a user. *)
Lemma run_unauthorized env request d :
  noSessionId env ->
  run env request d = (mkWorld d [], Returned (errorResponse 401 "Unauthorized")).
Proof. intros [H|H]; handler_unfold; rewrite H; reflexivity. Qed.

Lemma run_user_not_found env request d id :
  sessionUserId (env_session env) = Some id -> id <> "" ->
  filter (fun u => user_id u = id) (users d) = [] ->
  run env request d = (mkWorld d [], Returned (errorResponse 401 "User not found")).
Proof.
  intros Hs Hid Hf. handler_unfold. rewrite Hs, bool_decide_eq_false_2 by exact Hid.
  cbn [db]. rewrite Hf. reflexivity.
Qed.

Lemma run_null env request d dbUser :
  resolveUser env d = Some dbUser -> req_json request = inr JNull ->
  run env request d = (mkWorld d [], Thrown destructureNull).
Proof. intros Hu Hb. pass_lookup Hu. rewrite Hb. reflexivity. Qed.

(** The answer depends on the store through the users and, for the user
    found, the count of the day. *)
Lemma outcome_depends_on_count env request d d' :
  users d' = users d ->
  (forall dbUser, resolveUser env d = Some dbUser ->
                  countToday env (user_id dbUser) d' = countToday env (user_id dbUser) d) ->
  snd (run env request d') = snd (run env request d).
Proof.
  intros Hus Hcount.
  assert (Hres : resolveUser env d' = resolveUser env d)
    by (unfold resolveUser; rewrite Hus; reflexivity).
  destruct (POST_run env request d) as
    [Hn | id Hs Hid Hf | dbUser e Hu Hb | dbUser Hu Hb | dbUser body Hu Hb Hn Hm
     | dbUser body m ms Hu Hb Hm Ha Hc | dbUser body m ms f Hu Hb Hm Hc Hv
     | dbUser body m ms converted Hu Hb Hm Hc Hv]; cbn [snd].
  - rewrite run_unauthorized by exact Hn. reflexivity.
  - rewrite (run_user_not_found _ _ _ id) by (rewrite ?Hus; assumption). reflexivity.
  - rewrite <- Hres in Hu. rewrite (run_unreadable _ _ _ _ _ Hu Hb). reflexivity.
  - rewrite <- Hres in Hu. rewrite (run_null _ _ _ _ Hu Hb). reflexivity.
  - rewrite <- Hres in Hu. rewrite (run_no_messages _ _ _ _ _ Hu Hb Hn Hm). reflexivity.
  - rewrite <- (Hcount _ Hu) in Hc. rewrite <- Hres in Hu.
    rewrite (run_denied _ _ _ _ _ _ _ Hu Hb Hm Ha Hc). reflexivity.
  - rewrite <- (Hcount _ Hu) in Hc. rewrite <- Hres in Hu.
    rewrite (run_unconvertible _ _ _ _ _ _ _ _ Hu Hb Hm Hc Hv). reflexivity.
  - rewrite <- (Hcount _ Hu) in Hc. rewrite <- Hres in Hu.
    rewrite (run_admitted _ _ _ _ _ _ _ _ Hu Hb Hm Hc Hv). reflexivity.
Qed.

Lemma requestsToday_passedOver env userId us before others after :
  Forall (passedOver env userId) others ->
  requestsToday env userId (mkDb us (before ++ others ++ after))
  = requestsToday env userId (mkDb us (before ++ after)).
Proof.
  intros H. unfold requestsToday. cbn [requestLogs]. rewrite !filter_app.
  f_equal. replace (filter _ others) with (@nil RequestLog); [reflexivity|].
  symmetry. induction H as [|r others Hr _ IH]; [reflexivity|].
  rewrite filter_cons, decide_False; [exact IH|].
  intros [Hid Ht]. destruct Hr as [Hr|Hr]; [congruence | lia].
Qed.

(** X4. Rows of [requestLogs] that belong to another user, or that were
    created before the start of the current day, do not count: wherever
    such rows sit in the log, the handler's answer is what it is without
    them. *)
Theorem other_rows_do_not_count env request us before others after dbUser :
  resolveUser env (mkDb us (before ++ after)) = Some dbUser ->
  Forall (passedOver env (user_id dbUser)) others ->
  snd (run env request (mkDb us (before ++ others ++ after)))
  = snd (run env request (mkDb us (before ++ after))).
Proof.
  intros Hu Hothers. apply outcome_depends_on_count; [reflexivity|].
  intros dbUser' Hu'. assert (dbUser' = dbUser) as -> by congruence.
  unfold countToday. rewrite requestsToday_passedOver by exact Hothers. reflexivity.
Qed.

(** The witness of X4: with a limit of 1, [alice]'s request of yesterday
    and [root]'s of today leave her first request of today allowed. *)
Lemma other_rows_do_not_count_witness :
  allowed (snd (run Sample.strictEnv Sample.sampleRequest
                  (mkDb [Sample.alice]
                        ([] ++ [mkRequestLog "alice" 900000; mkRequestLog "root" 999500]
                         ++ [])))).
Proof.
  rewrite (other_rows_do_not_count Sample.strictEnv Sample.sampleRequest [Sample.alice]
             [] [mkRequestLog "alice" 900000; mkRequestLog "root" 999500] []
             Sample.alice eq_refl).
  - reflexivity.
  - constructor; [right; reflexivity|].
    constructor; [left; discriminate|]. constructor.
Defined.


(** The witness of X5: on a day without an earlier request and with a limit
    of 2, [alice]'s second request is answered with the stream and her third
    is answered 429. *)
Lemma nth_request_of_the_day_witness :
  allowed (snd (run Sample.sampleEnv Sample.sampleRequest
                  (serveAt Sample.sampleEnv Sample.sampleRequest [1000010%Z]
                     (mkDb [Sample.alice] []))))
  /\ snd (run Sample.sampleEnv Sample.sampleRequest
            (serveAt Sample.sampleEnv Sample.sampleRequest [1000010%Z; 1000020%Z]
               (mkDb [Sample.alice] [])))
     = Returned (errorResponse 429 "Daily request limit reached").
Proof.
  split.
  - destruct (nth_request_of_the_day Sample.sampleEnv Sample.sampleRequest
                (mkDb [Sample.alice] []) Sample.alice _ Sample.sampleMessage []
                [1000010%Z] eq_refl eq_refl eq_refl eq_refl) as (_ & _ & H).
    + constructor; [reflexivity|]. constructor.
    + reflexivity.
    + apply (H [Sample.sampleMessage] eq_refl). cbn. lia.
  - destruct (nth_request_of_the_day Sample.sampleEnv Sample.sampleRequest
                (mkDb [Sample.alice] []) Sample.alice _ Sample.sampleMessage []
                [1000010%Z; 1000020%Z] eq_refl eq_refl eq_refl eq_refl) as (_ & H & _).
    + constructor; [reflexivity|]. constructor; [reflexivity|]. constructor.
    + reflexivity.
    + apply H. cbn. lia.
Defined.

Lemma requestsToday_other_user env userId other d :
  other <> userId ->
  requestsToday env other
    (mkDb (users d) (requestLogs d ++ [mkRequestLog userId (env_now env)]))
  = requestsToday env other d.
Proof.
  intros H. unfold requestsToday. cbn [requestLogs]. rewrite filter_app.
  rewrite (filter_cons _ (mkRequestLog userId (env_now env))), decide_False.
  - apply app_nil_r.
  - cbn. intros [Hid _]. congruence.
Qed.

(** X6. A request that is allowed raises the count of the day of the user it
    was made for by exactly one, and leaves the rows that count for any
    other user, and the users, as they were. *)
Theorem allowed_request_counts_once env request d :
  allowed (snd (run env request d)) ->
  exists dbUser,
    resolveUser env d = Some dbUser
    /\ users (db (fst (run env request d))) = users d
    /\ countToday env (user_id dbUser) (db (fst (run env request d)))
       = (countToday env (user_id dbUser) d + 1)%Z
    /\ forall other, other <> user_id dbUser ->
         requestsToday env other (db (fst (run env request d)))
         = requestsToday env other d.
Proof.
  destruct (POST_run env request d) as
    [Hn | id Hs Hid Hf | dbUser e Hu Hb | dbUser Hu Hb | dbUser body Hu Hb Hn Hm
     | dbUser body m ms Hu Hb Hm Ha Hc | dbUser body m ms f Hu Hb Hm Hc Hv
     | dbUser body m ms converted Hu Hb Hm Hc Hv];
    cbn [snd fst db allowed]; intros Hal; try contradiction; try discriminate Hal.
  exists dbUser. split; [exact Hu|]. split; [reflexivity|]. split.
  - unfold countToday. rewrite admitted_request_is_counted. lia.
  - intros other Hne. apply requestsToday_other_user, Hne.
Qed.

(** The witness of X6: [alice]'s request under a limit of 2. *)
Lemma allowed_request_counts_once_witness :
  exists dbUser,
    resolveUser Sample.sampleEnv Sample.sampleDb = Some dbUser
    /\ countToday Sample.sampleEnv (user_id dbUser)
         (db (fst (run Sample.sampleEnv Sample.sampleRequest Sample.sampleDb)))
       = (countToday Sample.sampleEnv (user_id dbUser) Sample.sampleDb + 1)%Z.
Proof.
  destruct (allowed_request_counts_once Sample.sampleEnv Sample.sampleRequest
              Sample.sampleDb eq_refl) as (dbUser & Hu & _ & Hc & _).
  exists dbUser. split; [exact Hu | exact Hc].
Defined.

(** X7. With a daily limit of zero or less, no request of a user who is not
    an admin is allowed, whatever the log holds. *)
Theorem no_quota_no_request env request d dbUser :
  resolveUser env d = Some dbUser ->
  user_isAdmin dbUser = false ->
  (env_DAILY_REQUEST_LIMIT env <= 0)%Z ->
  ~ allowed (snd (run env request d)).
Proof.
  intros Hu Ha Hl.
  destruct (POST_run env request d) as
    [Hn | id Hs Hid Hf | dbUser' e Hu' Hb | dbUser' Hu' Hb | dbUser' body Hu' Hb Hn Hm
     | dbUser' body m ms Hu' Hb Hm Ha' Hc | dbUser' body m ms f Hu' Hb Hm Hc Hv
     | dbUser' body m ms converted Hu' Hb Hm Hc Hv];
    cbn [snd allowed]; try tauto.
  assert (dbUser' = dbUser) as -> by congruence.
  destruct Hc as [Hc|Hc]; [congruence|]. unfold countToday in Hc. lia.
Qed.

(** The witness of X7: [alice] with a first request of the day and a limit
    of zero. *)
Lemma no_quota_no_request_witness :
  ~ allowed (snd (run (mkEnv (env_session Sample.sampleEnv) 1000000 0 Sample.convertObjects)
                    Sample.sampleRequest (mkDb [Sample.alice] []))).
Proof.
  apply (no_quota_no_request (mkEnv (env_session Sample.sampleEnv) 1000000 0 Sample.convertObjects)
           Sample.sampleRequest (mkDb [Sample.alice] []) Sample.alice eq_refl eq_refl).
  cbn. lia.
Defined.

(** A message that does not convert is recorded all the same: the row is
    written, the conversion throws, and the model is not called. *)
Example unconvertible_message_is_recorded :
  run Sample.sampleEnv (mkRequest (inr (JObj [("messages", JArr [JNull])])))
    Sample.sampleDb
  = (mkWorld (mkDb (users Sample.sampleDb)
                   (requestLogs Sample.sampleDb ++ [mkRequestLog "alice" 1000000]))
             [InsertRequestLog (mkRequestLog "alice" 1000000)],
     Thrown (ThrownError "TypeError" "Cannot read properties of null (reading 'role')")).
Proof. reflexivity. Qed.

(** X8. Whatever the request, the handler never changes [users] and never
    removes or alters a row of [requestLogs]. It ends in one of three ways:
    it leaves the world as it found it, and the request is not allowed; or
    it appends one row and throws the error of the conversion, calling
    nothing; or it appends one row and then calls the model once, and the
    request is allowed. So the model is never called before the row is
    written, and at most one row is written. *)
Theorem handler_only_appends env request d :
  users (db (fst (run env request d))) = users d
  /\ ((fst (run env request d) = mkWorld d [] /\ ~ allowed (snd (run env request d)))
      \/ (exists row f,
            requestLogs (db (fst (run env request d))) = requestLogs d ++ [row]
            /\ effects (fst (run env request d)) = [InsertRequestLog row]
            /\ snd (run env request d) = Thrown (conversionError f))
      \/ (allowed (snd (run env request d))
          /\ exists row opts,
               requestLogs (db (fst (run env request d))) = requestLogs d ++ [row]
               /\ effects (fst (run env request d))
                  = [InsertRequestLog row; CallStreamText opts])).
Proof.
  destruct (POST_run env request d) as
    [Hn | id Hs Hid Hf | dbUser e Hu Hb | dbUser Hu Hb | dbUser body Hu Hb Hn Hm
     | dbUser body m ms Hu Hb Hm Ha Hc | dbUser body m ms f Hu Hb Hm Hc Hv
     | dbUser body m ms converted Hu Hb Hm Hc Hv];
    cbn [snd fst db users allowed];
    (split; [reflexivity|]);
    try (left; split; [reflexivity | tauto]).
  - right. left. eauto.
  - right. right. split; [reflexivity|]. eauto.
Qed.

End HandlerFacts.

(* ===================================================================== *)
(** * Part IX: further properties of the [searchWeb] tool *)
(* ===================================================================== *)

Module ToolFacts.
Import Route Vocabulary.

Ltac execute_unfold :=
  unfold execute, tryCatch, awaitSearchSerper, consoleError, mbind, mret,
    async_bind, async_ret.

(** X9. Whatever the provider does, [execute] returns a list and does not
    throw; it calls the provider exactly once, with the query it was given,
    a count of 10 and the signal it was given, and never again after a
    failure; and it writes to the error console exactly when the provider
    failed. *)
Theorem execute_calls_once_and_returns searchSerper query abortSignal :
  (exists items, snd (execute searchSerper query abortSignal) = inr items)
  /\ List.filter isSearchCall (fst (execute searchSerper query abortSignal))
     = [CallSearchSerper {| q := query; num := 10 |} abortSignal]
  /\ (existsb isConsoleError (fst (execute searchSerper query abortSignal)) = true
      <-> exists err, searchSerper {| q := query; num := 10 |} abortSignal = inl err).
Proof.
  execute_unfold.
  destruct (searchSerper _ _) as [err|results]; cbn.
  - split; [eauto|]. split; [reflexivity|]. split; [eauto | reflexivity].
  - split; [eauto|]. split; [reflexivity|]. split; [discriminate|].
    intros [err H]. discriminate H.
Qed.

(** X10. [execute] returns the empty list exactly when the search succeeds
    with no organic result; after a failure the list is never empty. *)
Theorem execute_empty_iff_no_result searchSerper query abortSignal :
  snd (execute searchSerper query abortSignal) = inr []
  <-> exists results,
        searchSerper {| q := query; num := 10 |} abortSignal = inr results
        /\ organic results = [].
Proof.
  execute_unfold.
  destruct (searchSerper _ _) as [err|results]; cbn.
  - split; [discriminate|]. intros (results & H & _). discriminate H.
  - split.
    + intros H. exists results. split; [reflexivity|].
      injection H as H. destruct (organic results); [reflexivity | discriminate H].
    + intros (results' & H & He). injection H as <-. rewrite He. reflexivity.
Qed.

End ToolFacts.

(* ===================================================================== *)
(** * Part X: further properties of the chat page *)
(* ===================================================================== *)

Module PageFacts.
Import ChatPage Vocabulary ChatPageProps.

(** ** The form *)

Lemma onFormSubmit_sending v :
  nonEmpty (trim (input v)) = true -> busy (status v) = false ->
  isAuthenticated v = true ->
  onFormSubmit v = [preventDefault; sendMessage (input v); setInput ""].
Proof. intros Hn Hb Ha. unfold onFormSubmit. rewrite Hn, Hb, Ha. reflexivity. Qed.

Lemma onFormSubmit_send_inv v text :
  sendMessage text ∈ onFormSubmit v ->
  text = input v /\ nonEmpty (trim (input v)) = true
  /\ busy (status v) = false /\ isAuthenticated v = true.
Proof.
  unfold onFormSubmit.
  destruct (nonEmpty (trim (input v))), (busy (status v)), (isAuthenticated v); cbn;
    intros H; repeat (apply elem_of_cons in H as [H|H]; [try discriminate H|]);
    try (inversion H; fail).
  injection H as ->. auto.
Qed.

Lemma onFormSubmit_modal_inv v value :
  setShowSignInModal value ∈ onFormSubmit v ->
  value = true /\ nonEmpty (trim (input v)) = true
  /\ busy (status v) = false /\ isAuthenticated v = false.
Proof.
  unfold onFormSubmit.
  destruct (nonEmpty (trim (input v))), (busy (status v)), (isAuthenticated v); cbn;
    intros H; repeat (apply elem_of_cons in H as [H|H]; [try discriminate H|]);
    try (inversion H; fail).
  injection H as ->. auto.
Qed.

(** X11. A submit calls [sendMessage] exactly when the input is not blank,
    no request is under way and the user is signed in; it then sends the
    input as typed, untrimmed, and clears the input afterwards. *)
Theorem submit_sends_iff v text :
  sendMessage text ∈ onFormSubmit v
  <-> text = input v
      /\ nonEmpty (trim (input v)) = true
      /\ busy (status v) = false
      /\ isAuthenticated v = true
      /\ onFormSubmit v = [preventDefault; sendMessage (input v); setInput ""].
Proof.
  split.
  - intros H. destruct (onFormSubmit_send_inv _ _ H) as (-> & Hn & Hb & Ha).
    repeat split; auto using onFormSubmit_sending.
  - intros (-> & _ & _ & _ & ->). right. left.
Qed.

(** X12. The submit button is enabled exactly when a submit would send a
    message. *)
Theorem button_enabled_iff_submit_sends v :
  buttonDisabled v = false <-> sends v.
Proof.
  unfold sends, buttonDisabled. split.
  - intros H. apply orb_false_iff in H as [H Ha]. apply orb_false_iff in H as [Hb Hn].
    apply negb_false_iff in Ha, Hn.
    exists (input v). rewrite onFormSubmit_sending by assumption. right. left.
  - intros [text H]. destruct (onFormSubmit_send_inv _ _ H) as (_ & Hn & Hb & Ha).
    rewrite Hn, Hb, Ha. reflexivity.
Qed.

(** X13. A submit opens the sign-in modal exactly when the input is not
    blank, no request is under way and the user is not signed in; it then
    sends nothing and leaves the input as it is. A submit never closes the
    modal. *)
Theorem submit_opens_modal_iff v value :
  setShowSignInModal value ∈ onFormSubmit v
  <-> value = true
      /\ nonEmpty (trim (input v)) = true
      /\ busy (status v) = false
      /\ isAuthenticated v = false
      /\ onFormSubmit v = [preventDefault; setShowSignInModal true].
Proof.
  split.
  - intros H. destruct (onFormSubmit_modal_inv _ _ H) as (-> & Hn & Hb & Ha).
    repeat split; auto. unfold onFormSubmit. rewrite Hn, Hb, Ha. reflexivity.
  - intros (-> & _ & _ & _ & ->). right. left.
Qed.

(** ** Blank input *)

Lemma trimStart_blank s : blank s = true -> trimStart s = "".
Proof.
  induction s as [|a s IH]; cbn [blank trimStart]; [reflexivity|].
  destruct (isWhiteSpace a); [exact IH | discriminate].
Qed.

Lemma trim_blank s : blank s = true -> trim s = "".
Proof. intros H. unfold trim. rewrite (trimStart_blank s H). reflexivity. Qed.

(** White space beyond ASCII is trimmed too: an input of one no-break space
    is not sent, whoever submits it. *)
Example no_break_space_is_not_sent authenticated :
  onFormSubmit (mkView (String (ascii_of_nat 194) (String (ascii_of_nat 160) ""))
                       false ∅ [] ready None authenticated)
  = [preventDefault].
Proof. destruct authenticated; reflexivity. Qed.

(** X14. An input made of white space only (spaces, tabs, line breaks), or
    empty, is not sent: the submit handler does nothing but prevent the
    default, opening no modal either, and the submit button is disabled,
    whatever the status and whoever the user. *)
Theorem blank_input_is_not_sent v :
  blank (input v) = true ->
  onFormSubmit v = [preventDefault] /\ buttonDisabled v = true.
Proof.
  intros H. apply trim_blank in H. unfold onFormSubmit, buttonDisabled, nonEmpty.
  rewrite H. cbn. rewrite orb_true_r. auto.
Qed.

(** The witness of X14: a signed-in user with an input of spaces and a
    tab. *)
Lemma blank_input_is_not_sent_witness :
  onFormSubmit (mkView (String " " (String " " (String (ascii_of_nat 9) "")))
                       false ∅ [] ready None true)
  = [preventDefault].
Proof.
  exact (proj1 (blank_input_is_not_sent
                  (mkView (String " " (String " " (String (ascii_of_nat 9) "")))
                          false ∅ [] ready None true) eq_refl)).
Defined.


(** ** Tool parts *)

Lemma substring_all s : String.substring 0 (String.length s) s = s.
Proof. induction s as [|a s IH]; cbn; [reflexivity | rewrite IH; reflexivity]. Qed.

Lemma partType_ToolPart toolName state output :
  partType (ToolPart toolName state output)
  = String "t" (String "o" (String "o" (String "l" (String "-" toolName)))).
Proof. reflexivity. Qed.

Lemma prefix_tool toolName :
  String.prefix "tool-"
    (String "t" (String "o" (String "o" (String "l" (String "-" toolName))))) = true.
Proof. destruct toolName; reflexivity. Qed.

(** The parts that [isToolUIPart] keeps are the tool parts. *)
Lemma isToolUIPart_isToolPart p : isToolUIPart p = isToolPart p.
Proof.
  unfold isToolUIPart. destruct p; try reflexivity.
  rewrite partType_ToolPart. apply bool_decide_eq_true_2, prefix_tool.
Qed.

Lemma toolNameOf_ToolPart toolName state output :
  toolNameOf (ToolPart toolName state output) = toolName.
Proof.
  unfold toolNameOf. rewrite partType_ToolPart, prefix_tool. cbn.
  rewrite Nat.sub_0_r. apply substring_all.
Qed.

(** X15. The name that the page shows for a tool part is the tool's name:
    stripping [tool-] from the part's type gives back the name the type was
    made from, also when the name itself starts with [tool-]. The summary
    of the part reads [Used: name], followed by the number of results in
    brackets when the output is an array. *)
Theorem tool_name_round_trip toolName state output :
  toolNameOf (ToolPart toolName state output) = toolName
  /\ summaryOf (ToolPart toolName state output)
     = "Used: " +:+ toolName
       +:+ match output with
           | Some (OutputArray items) => " (" +:+ resultsLabel (length items) +:+ ")"
           | _ => ""
           end.
Proof.
  split; [apply toolNameOf_ToolPart|].
  unfold summaryOf. rewrite toolNameOf_ToolPart. reflexivity.
Qed.

Lemma toolPartsOf_elem message p :
  p ∈ toolPartsOf message
  <-> exists ps, parts message = Some ps /\ p ∈ ps /\ isToolPart p = true.
Proof.
  unfold toolPartsOf. destruct (parts message) as [ps|].
  - rewrite list_elem_of_In, List.filter_In, <- list_elem_of_In, isToolUIPart_isToolPart.
    split.
    + intros [H1 H2]. eauto.
    + intros (ps' & Hp & H1 & H2). injection Hp as <-. auto.
  - split; [intros H; inversion H | intros (ps & H & _); discriminate H].
Qed.

(** X16. The "Searching the web" indicator of a message is shown exactly
    when one of the message's parts is a tool part whose state is
    [input-streaming] or [input-available]; parts of other kinds, and tool
    parts that have their output or an error, do not show it. *)
Theorem spinner_iff_tool_waits message :
  toolRunning message = true
  <-> exists ps p, parts message = Some ps /\ p ∈ ps /\ waiting p.
Proof.
  unfold toolRunning. rewrite existsb_exists. split.
  - intros (p & Hin & Hs). apply list_elem_of_In, toolPartsOf_elem in Hin
      as (ps & Hp & Hin & Ht).
    exists ps, p. split; [exact Hp|]. split; [exact Hin|].
    destruct p; try discriminate Ht. exists toolName, output.
    apply orb_true_iff in Hs as [Hs|Hs]; apply bool_decide_eq_true in Hs;
      injection Hs as ->; auto.
  - intros (ps & p & Hp & Hin & (toolName & output & [-> | ->])).
    + eexists. split.
      * apply list_elem_of_In, toolPartsOf_elem. eauto.
      * reflexivity.
    + eexists. split.
      * apply list_elem_of_In, toolPartsOf_elem. eauto.
      * reflexivity.
Qed.

Lemma filter_none {A} (f : A -> bool) (l : list A) :
  (forall x, x ∈ l -> f x = false) -> List.filter f l = [].
Proof.
  induction l as [|x l IH]; intros H; [reflexivity|].
  cbn. rewrite (H x) by left. apply IH. intros y Hy. apply H. right. exact Hy.
Qed.

(** X17. A message none of whose parts is a tool part is rendered as its
    [ChatMessage] alone: no indicator, no summary line, no result panel. *)
Theorem message_without_tools_is_plain expandedResults userName message :
  (forall ps p, parts message = Some ps -> p ∈ ps -> isToolPart p = false) ->
  renderMessage expandedResults userName message
  = Elem "div" [attr "key" (id message)]
      [ChatMessage (messageText message) (role message) userName].
Proof.
  intros H. unfold renderMessage, toolRunning, toolInfoOf.
  assert (toolPartsOf message = []) as ->; [|reflexivity].
  unfold toolPartsOf. destruct (parts message) as [ps|] eqn:Hp; [|reflexivity].
  apply filter_none. intros p Hin. rewrite isToolUIPart_isToolPart. eauto.
Qed.

(** The witness of X17: a user message with one text part. *)
Lemma message_without_tools_is_plain_witness :
  renderMessage ∅ "Ada" (userMessage 0 "What is Rocq?")
  = Elem "div" [attr "key" "msg-0"] [ChatMessage "What is Rocq?" user "Ada"].
Proof.
  apply (message_without_tools_is_plain ∅ "Ada" (userMessage 0 "What is Rocq?")).
  intros ps p Hp Hin. injection Hp as <-.
  apply elem_of_cons in Hin as [-> | Hin]; [reflexivity | inversion Hin].
Defined.


(** ** Result panels *)

Lemma flat_map_imap {A B C} (h : A -> list C) (g : B -> list C) (l : list A) :
  forall f : nat -> A -> B, (forall i x, g (f i x) = h x) ->
  flat_map g (imap f l) = flat_map h l.
Proof.
  induction l as [|x l IH]; intros f Hf; [reflexivity|].
  cbn. rewrite Hf. f_equal. apply IH. intros i y. apply Hf.
Qed.

Lemma tagsOf_renderItem_no_button idx item : "button" ∉ tagsOf (renderItem idx item).
Proof.
  unfold renderItem.
  destruct (nonEmpty (linkOf item)), (nonEmpty (snippetOf item)); cbn;
    intros H; repeat (apply elem_of_cons in H as [H|H]; [discriminate H|]);
    inversion H.
Qed.

(** X18. The panel of a tool part has a Show/Hide button exactly when the
    part's output is an array with at least one element. Without one (no
    output yet, an output that is not an array, or an empty array) the
    panel is its header alone, with the badge "0 results": no button and no
    list. *)
Theorem panel_has_button_iff_items expandedResults messageId index tp :
  ("button" ∈ tagsOf (renderToolPart expandedResults messageId index tp)
   <-> outputItems tp <> [])
  /\ (outputItems tp = [] ->
      renderToolPart expandedResults messageId index tp
      = Elem "div" [attr "key" (resultsKey messageId index)]
          [Elem "div" []
             [Elem "div" []
                [Elem "Search" [] [];
                 Elem "span" [] [Text (toolNameOf tp +:+ " results")];
                 Elem "span" [] [Text "0 results"]]]]).
Proof.
  assert (Hempty : outputItems tp = [] ->
      renderToolPart expandedResults messageId index tp
      = Elem "div" [attr "key" (resultsKey messageId index)]
          [Elem "div" []
             [Elem "div" []
                [Elem "Search" [] [];
                 Elem "span" [] [Text (toolNameOf tp +:+ " results")];
                 Elem "span" [] [Text "0 results"]]]]).
  { intros H. unfold renderToolPart. rewrite H. reflexivity. }
  split; [|exact Hempty]. split.
  - intros Hin He. rewrite (Hempty He) in Hin. cbn in Hin.
    repeat (apply elem_of_cons in Hin as [Hin|Hin]; [discriminate Hin|]).
    inversion Hin.
  - intros Hne. unfold renderToolPart.
    rewrite bool_decide_eq_false_2 by exact Hne. cbn.
    do 6 right. left.
Qed.

Lemma hrefs_renderItem idx item :
  hrefs (renderItem idx item) = if nonEmpty (linkOf item) then [linkOf item] else [].
Proof.
  unfold renderItem.
  destruct (nonEmpty (linkOf item)), (nonEmpty (snippetOf item)); reflexivity.
Qed.

Lemma flat_map_links items :
  flat_map (fun item => if nonEmpty (linkOf item) then [linkOf item] else []) items
  = itemLinks items.
Proof.
  unfold itemLinks. induction items as [|item items IH]; [reflexivity|].
  cbn. rewrite IH. destruct (nonEmpty (linkOf item)); reflexivity.
Qed.

Lemma hrefs_renderToolPart expandedResults messageId index tp :
  hrefs (renderToolPart expandedResults messageId index tp) = itemLinks (outputItems tp).
Proof.
  unfold renderToolPart, Collapse.
  destruct (bool_decide (outputItems tp = [])) eqn:He; cbn [negb].
  - apply bool_decide_eq_true in He. rewrite He. reflexivity.
  - cbn. rewrite !app_nil_r.
    rewrite (flat_map_imap _ _ _ renderItem hrefs_renderItem). apply flat_map_links.
Qed.

(** X19. The hyperlinks of a tool part's panel are the links of its items
    that have one, in the items' order, one hyperlink each; they are in the
    rendering whether the panel is expanded or collapsed. *)
Theorem panel_links_are_item_links expandedResults messageId index tp :
  hrefs (renderToolPart expandedResults messageId index tp) = itemLinks (outputItems tp)
  /\ hrefs (renderToolPart expandedResults messageId index tp)
     = hrefs (renderToolPart ∅ messageId index tp).
Proof. rewrite !hrefs_renderToolPart. auto. Qed.

(** ** The expand/collapse map, again *)

Lemma isExpanded_toggle (m : gmap string bool) key other :
  isExpanded (toggle key m) other
  = if decide (other = key) then negb (isExpanded m key) else isExpanded m other.
Proof.
  case_decide as H.
  - subst other. unfold isExpanded at 1. rewrite toggle_lookup_same. reflexivity.
  - unfold isExpanded. rewrite toggle_lookup_other by exact H. reflexivity.
Qed.

(** X20. Two clicks on the same Show/Hide button bring every panel back to
    what it was rendered as, although the map is not what it was: the key
    that was absent is now present and false. *)
Theorem toggle_twice_renders_the_same (m : gmap string bool) key :
  (forall messageId index tp,
     renderToolPart (toggle key (toggle key m)) messageId index tp
     = renderToolPart m messageId index tp)
  /\ (m !! key = None -> toggle key (toggle key m) !! key = Some false).
Proof.
  split.
  - intros messageId index tp. apply renderToolPart_reads_its_key.
    rewrite !isExpanded_toggle. case_decide; [|reflexivity].
    subst key. rewrite decide_True by reflexivity. apply negb_involutive.
  - intros H. rewrite toggle_lookup_same, isExpanded_toggle, decide_True by reflexivity.
    unfold isExpanded. rewrite H. reflexivity.
Qed.

(** X21. Clicks on the buttons of two different panels commute: the map
    they leave does not depend on their order. *)
Theorem toggles_commute (m : gmap string bool) key1 key2 :
  key1 <> key2 ->
  toggle key1 (toggle key2 m) = toggle key2 (toggle key1 m).
Proof.
  intros H. unfold toggle.
  rewrite (lookup_insert_ne m key2 key1) by congruence.
  rewrite (lookup_insert_ne m key1 key2) by congruence.
  apply insert_insert_ne. congruence.
Qed.

(** The witness of X21: the first two panels of message [m1]. *)
Lemma toggles_commute_witness :
  toggle (resultsKey "m1" 0) (toggle (resultsKey "m1" 1) ∅)
  = toggle (resultsKey "m1" 1) (toggle (resultsKey "m1" 0) ∅).
Proof.
  apply (toggles_commute ∅ (resultsKey "m1" 0) (resultsKey "m1" 1)). discriminate.
Defined.

(** ** The page as a whole *)

Lemma chatMessageTexts_renderForm v : chatMessageTexts (renderForm v) = [].
Proof. unfold renderForm. destruct (busy (status v)); reflexivity. Qed.

Lemma chatMessageTexts_renderBanner v : flat_map chatMessageTexts (renderBanner v) = [].
Proof. unfold renderBanner. destruct (_ || _); reflexivity. Qed.

(** X22. The page shows its messages in their order, one [ChatMessage] per
    message and no other, each with the text of the message's first text
    part; neither the failure banner nor the form adds one. *)
Theorem page_shows_messages_in_order userName v :
  flat_map chatMessageTexts (ChatPage userName v) = map messageText (messages v).
Proof.
  unfold ChatPage. cbn [flat_map chatMessageTexts].
  rewrite !flat_map_app, chatMessageTexts_renderBanner. cbn [flat_map chatMessageTexts].
  rewrite chatMessageTexts_renderForm. cbn. rewrite !app_nil_r.
  induction (messages v) as [|message ms IH]; [reflexivity|].
  cbn [map flat_map]. rewrite IH.
  change (chatMessageTexts (renderMessage (expandedResults v) userName message)
          ++ map messageText ms = messageText message :: map messageText ms).
  rewrite chatMessageTexts_renderMessage. reflexivity.
Qed.

End PageFacts.

(* ===================================================================== *)
(** * Part XI: from the tool to the page *)
(* ===================================================================== *)

Module EndToEnd.
Import Vocabulary.

Lemma linkOf_received item : ChatPage.linkOf (received item) = Route.link item.
Proof. reflexivity. Qed.

Lemma itemLinks_received items :
  itemLinks (map received items)
  = List.filter ChatPage.nonEmpty (map Route.link items).
Proof.
  unfold itemLinks. rewrite List.map_map. reflexivity.
Qed.

(** X23. What [execute] returns, once the page has it as the output of the
    [searchWeb] tool part, is rendered with these hyperlinks: after a
    successful search, the links of the provider's organic results that are
    not empty, in the provider's order; after a failed search, none, and
    the one item rendered is an error item. *)
Theorem search_output_on_the_page searchSerper query abortSignal
    (expandedResults : gmap string bool) messageId index items :
  snd (Route.execute searchSerper query abortSignal) = inr items ->
  ChatPage.hrefs
    (ChatPage.renderToolPart expandedResults messageId index (searchWebPart items))
  = match searchSerper {| Route.q := query; Route.num := 10 |} abortSignal with
    | inl _ => []
    | inr results =>
        List.filter ChatPage.nonEmpty (map Route.org_link (Route.organic results))
    end
  /\ (forall err,
        searchSerper {| Route.q := query; Route.num := 10 |} abortSignal = inl err ->
        exists item, items = [item] /\ ChatPage.isError 0 (received item) = true).
Proof.
  intros H. rewrite PageFacts.hrefs_renderToolPart.
  change (ChatPage.outputItems (searchWebPart items)) with (map received items).
  rewrite itemLinks_received.
  revert H. ToolFacts.execute_unfold.
  destruct (searchSerper _ _) as [err|results]; cbn; intros H; injection H as <-.
  - split; [reflexivity|]. intros err' _. eexists. split; [reflexivity|].
    unfold ChatPage.isError. cbn. reflexivity.
  - split; [|intros err H; discriminate H].
    rewrite List.map_map. reflexivity.
Qed.

(** The witness of X23: three results, three hyperlinks. *)
Lemma search_output_on_the_page_witness :
  exists items,
    snd (Route.execute Sample.threeResultSearch "rocq" (Route.mkAbortSignal false))
    = inr items
    /\ ChatPage.hrefs (ChatPage.renderToolPart ∅ "m1" 0 (searchWebPart items))
       = ["https://example.com/1"; "https://example.com/2"; "https://example.com/3"].
Proof.
  eexists. split; [reflexivity|].
  exact (proj1 (search_output_on_the_page Sample.threeResultSearch "rocq"
                  (Route.mkAbortSignal false) ∅ "m1" 0 _ eq_refl)).
Defined.

End EndToEnd.
